(** * aab.cli: the command-line driver of the Anki add-on builder

    A shallow embedding of [src/aab/cli.py] and the properties of its
    target expansion, its sequential task driver, the manifest command and
    the entry point [main].

    The Python module is effectful: it prints, logs, reads the project
    directory and calls into the builder classes.  Every function of the
    module becomes a computation in a small monad [M] that threads the
    outside world, may raise a Python exception, and records what the module
    printed, logged and called. *)

From stdpp Require Import base strings list gmap pretty.

Local Open Scope string_scope.
Local Open Scope list_scope.

(** ** Python values used by the module *)

(** Modelled from the spec: the enumeration [QtVersion] of the absent module
    [ui].  Section 3 has exactly two toolkit variants; [cli.py] names them
    [QtVersion.qt5] and [QtVersion.qt6], and they are the concrete choices
    of the parser's [--target]. *)
Inductive QtVersion := qt5 | qt6.

#[global] Instance QtVersion_eq_dec : EqDecision QtVersion.
Proof. solve_decision. Defined.

Definition QtVersion_name (v : QtVersion) : string :=
  match v with qt5 => "qt5" | qt6 => "qt6" end.

(** [QtVersion[key]]: lookup of an enum member by name; [None] stands for the
    [KeyError] Python raises on any other name. *)
Definition QtVersion_getitem (key : string) : option QtVersion :=
  if decide (key = "qt5") then Some qt5
  else if decide (key = "qt6") then Some qt6
  else None.

(** Modelled from the spec: [DIST_TYPES], the constant imported from the
    package's [__init__] module, which is not part of the sources at hand.
    Section 3 gives the channel enumeration as local and hosted and section
    4.3 expands the selector [all] to both, in this fixed order; the parser
    of [cli.py] spells the two channels [local] and [ankiweb]. *)
Definition DIST_TYPES : list string := ["local"; "ankiweb"].

(** Paths are lists of components; [p </> s] is pathlib's [p / s] for a
    single component [s], and [path_name] is [Path.name]. *)
Abbreviation Path := (list string).

Definition path_join (p : Path) (s : string) : Path := p ++ [s].
Infix "</>" := path_join (at level 40, left associativity).

Definition path_name (p : Path) : string := List.last p "".

Inductive PyVal := PyNone | PyBool (b : bool) | PyObj (repr : string).

Inductive Exn :=
| SystemExit (code : Z)
| KeyError (key : string)
| AttributeError (attr : string)
| ExternalError (what : string).

Inductive Res (A : Type) := Ret (a : A) | Raise (e : Exn).
Arguments Ret {A} a.
Arguments Raise {A} e.

Definition raised {A} (r : Res A) : option Exn :=
  match r with Ret _ => None | Raise e => Some e end.

(** The exit status of the interpreter for the outcome of [main]. *)
Definition exit_status {A} (r : Res A) : Z :=
  match r with
  | Ret _ => 0
  | Raise (SystemExit code) => code
  | Raise _ => 1
  end.

(** ** The outside world *)

(** The add-on properties ([Config()]), restricted to the two keys the module
    reads, [Config()["targets"]] and [Config()["module_name"]], both taken
    to be present. *)
Record Config := { cfg_targets : list string; cfg_module_name : string }.

(** Modelled from the spec: what the absent modules [config] and [git] give
    the pipeline.  Sections 3 and 6 make the add-on properties and the
    version control history read-only inputs that no stage owns or writes:
    the configuration store as what [Config()] yields, the history through
    the outcome of [Git().parse_version].  Both calls may raise. *)
Record Inputs := {
  config_store : Res Config;
  vcs_resolve : option string → Res string;
}.

Inductive Node := Dir | File (content : string).

(** The world of a run: the inputs, and the files of the project directory
    by path. *)
Record World := { inputs : Inputs; fs : gmap Path Node }.

(** ** What a run prints, logs and calls *)

Inductive Call :=
| call_Config
| call_parse_version (vstring : option string)
| call_AddonBuilder (version : option string)
| call_build (qt_versions : list QtVersion) (disttype : string)
| call_create_dist
| call_build_dist (qt_versions : list QtVersion) (disttype : string)
| call_package_dist (qt_versions : list QtVersion) (disttype : string)
| call_UIBuilder (root : Path)
| call_ui_build (qt_version : QtVersion)
| call_create_qt_shim
| call_generate_and_write_manifest
    (addon_properties : Config) (version dist_type : string) (target_dir : Path)
| call_clean_repo.

Inductive Event :=
| EvPrint (line : string)
| EvLogInfo (message : string)
| EvLogConfig (debug : bool)
| EvUsage
| EvCall (c : Call) (exn : option Exn).

(** ** The monad of the module's functions *)

Definition M (A : Type) : Type := World → Res A * World * list Event.

#[global] Instance M_ret : MRet M := λ A a w, (Ret a, w, []).

#[global] Instance M_bind : MBind M := λ A B f m w,
  match m w with
  | (Ret a, w1, t1) => let '(r, w2, t2) := f a w1 in (r, w2, t1 ++ t2)
  | (Raise e, w1, t1) => (Raise e, w1, t1)
  end.

Definition raise {A} (e : Exn) : M A := λ w, (Raise e, w, []).

Definition emit (ev : Event) : M () := λ w, (Ret (), w, [ev]).

Definition print (line : string) : M () := emit (EvPrint line).
Definition logging_info (message : string) : M () := emit (EvLogInfo message).

(** A call that only reads the inputs. *)
Definition reading {A} (c : Call) (f : Inputs → Res A) : M A := λ w,
  let r := f (inputs w) in (r, w, [EvCall c (raised r)]).

(** A call that works on the files of the project directory. *)
Definition updating {A} (c : Call)
    (f : gmap Path Node → Res A * gmap Path Node) : M A := λ w,
  let '(r, fs') := f (fs w) in
  (r, {| inputs := inputs w; fs := fs' |}, [EvCall c (raised r)]).

Definition path_exists (p : Path) : M bool := λ w,
  (Ret (bool_decide (is_Some (fs w !! p))), w, []).

Definition result {A} (x : Res A * World * list Event) : Res A := x.1.1.
Definition final {A} (x : Res A * World * list Event) : World := x.1.2.
Definition trace {A} (x : Res A * World * list Event) : list Event := x.2.

(** Python's [for x in xs: body], where the body updates one local variable
    (the task counter of the drivers). *)
Fixpoint py_for {X S} (xs : list X) (body : X → S → M S) (s : S) : M S :=
  match xs with
  | [] => mret s
  | x :: xs' => s' ← body x s; py_for xs' body s'
  end.

(** A list comprehension [[f x for x in xs]] whose element expression may
    raise. *)
Fixpoint py_listcomp {X Y} (f : X → M Y) (xs : list X) : M (list Y) :=
  match xs with
  | [] => mret []
  | x :: xs' => y ← f x; ys ← py_listcomp f xs'; mret (y :: ys)
  end.

(** ** [argparse.Namespace] *)

Inductive Command :=
| cmd_usage | cmd_build | cmd_ui | cmd_manifest | cmd_clean
| cmd_create_dist | cmd_build_dist | cmd_package_dist.

#[global] Instance Command_eq_dec : EqDecision Command.
Proof. solve_decision. Defined.

(** An attribute is [None] when the sub-command's parser does not define it
    ([hasattr] is false); [version] is present with Python's [None] when the
    positional argument is left out. *)
Record Namespace := {
  verbose : bool;
  target : option string;
  dist : option string;
  version : option (option string);
  func : Command;
}.

Definition getattr {A} (name : string) (o : option A) : M A :=
  match o with Some a => mret a | None => raise (AttributeError name) end.

(** What [parser.parse_args()] does with a command line. *)
Inductive Parse := parse_ok (args : Namespace) | parse_help | parse_error.

(** [construct_parser]: the sub-commands, each with the function it sets as
    [func] and the parent parsers it takes its arguments from. *)
Record Subparser := {
  sub_name : string;
  sub_func : Command;
  build_parent : bool;
  target_parent : bool;
  dist_parent : bool;
}.

Definition construct_parser : list Subparser := [
  {| sub_name := "build"; sub_func := cmd_build;
     build_parent := true; target_parent := true; dist_parent := true |};
  {| sub_name := "ui"; sub_func := cmd_ui;
     build_parent := false; target_parent := true; dist_parent := false |};
  {| sub_name := "manifest"; sub_func := cmd_manifest;
     build_parent := true; target_parent := false; dist_parent := true |};
  {| sub_name := "clean"; sub_func := cmd_clean;
     build_parent := false; target_parent := false; dist_parent := false |};
  {| sub_name := "create_dist"; sub_func := cmd_create_dist;
     build_parent := true; target_parent := true; dist_parent := true |};
  {| sub_name := "build_dist"; sub_func := cmd_build_dist;
     build_parent := true; target_parent := true; dist_parent := true |};
  {| sub_name := "package_dist"; sub_func := cmd_package_dist;
     build_parent := true; target_parent := true; dist_parent := true |}
].

Definition target_choices : list string := ["qt6"; "qt5"; "all"; "anki21"].
Definition dist_choices : list string := ["local"; "ankiweb"; "all"].

(** [args] is a namespace [parse_args] returns for the sub-command [sub]: it
    has the attributes of the parents of [sub], each among its choices. *)
Definition parsed_by (sub : Subparser) (args : Namespace) : bool :=
  bool_decide (func args = sub_func sub)
  && match target args with
     | Some t => target_parent sub && bool_decide (t ∈ target_choices)
     | None => negb (target_parent sub)
     end
  && match dist args with
     | Some d => dist_parent sub && bool_decide (d ∈ dist_choices)
     | None => negb (dist_parent sub)
     end
  && match version args with
     | Some _ => build_parent sub
     | None => negb (build_parent sub)
     end.

(** The namespaces [parse_args] returns: for one of the sub-commands, or for
    a command line without one, where [func] is the default. *)
Definition parsed (args : Namespace) : bool :=
  existsb (λ sub, parsed_by sub args) construct_parser
  || (bool_decide (func args = cmd_usage)
      && bool_decide (target args = None)
      && bool_decide (dist args = None)
      && bool_decide (version args = None)).

Definition set_target (args : Namespace) (t : string) : Namespace :=
  {| verbose := verbose args; target := Some t; dist := dist args;
     version := version args; func := func args |}.

(** ** The collaborators the module imports

    [cli.py] imports its constants and the builder classes from modules that
    are not part of the sources at hand; they are parameters of the
    development.  Constructors read the inputs only, methods work on the
    files. *)
Class Externals := {
  Builder : Type;
  UIBuilderObj : Type;
  COPYRIGHT_MSG : string;
  PATH_ROOT : Path;
  PATH_CONFIG : Path;
  MANIFEST_FILE : string;
  AddonBuilder_init : option string → Inputs → Res Builder;
  stage_create_dist : Builder → gmap Path Node → Res () * gmap Path Node;
  stage_build_dist :
    Builder → list QtVersion → string → gmap Path Node → Res () * gmap Path Node;
  stage_package_dist :
    Builder → list QtVersion → string → gmap Path Node → Res () * gmap Path Node;
  UIBuilder_init : Path → Inputs → Res UIBuilderObj;
  uibuilder_build : UIBuilderObj → QtVersion → gmap Path Node → Res () * gmap Path Node;
  uibuilder_create_qt_shim : UIBuilderObj → gmap Path Node → Res () * gmap Path Node;
  manifest_generate : Config → string → string → Res string;
  repo_clean : gmap Path Node → Res PyVal * gmap Path Node;
}.

Section Cli.
Context {E : Externals}.

(** Modelled from the spec: [AddonBuilder.build], the method of the absent
    module [builder] behind the [build] command.  Section 4.5: the
    convenience build runs the three stages createDist, buildDist and
    packageDist in sequence; a stage that fails ends the unit. *)
Definition stage_build (b : Builder) (qt_versions : list QtVersion)
    (disttype : string) (files : gmap Path Node) : Res () * gmap Path Node :=
  match stage_create_dist b files with
  | (Ret _, f1) =>
      match stage_build_dist b qt_versions disttype f1 with
      | (Ret _, f2) => stage_package_dist b qt_versions disttype f2
      | (Raise e, f2) => (Raise e, f2)
      end
  | (Raise e, f1) => (Raise e, f1)
  end.

(** Modelled from the spec: [ManifestUtils.generate_and_write_manifest], of
    the absent module [manifest].  Section 4.4: the manifest is synthesized
    from the properties, the version and the channel (which may fail), and
    is then written as one file into the target directory, overwriting any
    prior manifest file there. *)
Definition write_manifest (addon_properties : Config) (version dist_type : string)
    (target_dir : Path) (files : gmap Path Node) : Res () * gmap Path Node :=
  match manifest_generate addon_properties version dist_type with
  | Ret m => (Ret (), <[target_dir </> MANIFEST_FILE := File m]> files)
  | Raise e => (Raise e, files)
  end.

(** The calls of the module, each recorded in the trace. *)
Definition Config_new : M Config := reading call_Config config_store.

Definition Git_parse_version (vstring : option string) : M string :=
  reading (call_parse_version vstring) (λ i, vcs_resolve i vstring).

Definition AddonBuilder (version : option string) : M Builder :=
  reading (call_AddonBuilder version) (AddonBuilder_init version).

Definition builder_build (b : Builder) (qt_versions : list QtVersion)
    (disttype : string) : M () :=
  updating (call_build qt_versions disttype) (stage_build b qt_versions disttype).

Definition builder_create_dist (b : Builder) : M () :=
  updating call_create_dist (stage_create_dist b).

Definition builder_build_dist (b : Builder) (qt_versions : list QtVersion)
    (disttype : string) : M () :=
  updating (call_build_dist qt_versions disttype)
           (stage_build_dist b qt_versions disttype).

Definition builder_package_dist (b : Builder) (qt_versions : list QtVersion)
    (disttype : string) : M () :=
  updating (call_package_dist qt_versions disttype)
           (stage_package_dist b qt_versions disttype).

Definition UIBuilder (root : Path) : M UIBuilderObj :=
  reading (call_UIBuilder root) (UIBuilder_init root).

Definition generate_and_write_manifest (addon_properties : Config)
    (version dist_type : string) (target_dir : Path) : M () :=
  updating (call_generate_and_write_manifest addon_properties version dist_type target_dir)
           (write_manifest addon_properties version dist_type target_dir).

Definition clean_repo : M PyVal := updating call_clean_repo repo_clean.

Definition sys_exit {A} (code : Z) : M A := raise (SystemExit code).

(** ** Checks *)

Definition not_found_msg (dir : string) : string :=
  "Error: " +:+ dir +:+ " not found. Please run this script from the project root.".

Fixpoint validate_cwd_loop (required : list Path) : M bool :=
  match required with
  | [] => mret true
  | path :: rest =>
      found ← path_exists path;
      if negb found then
        print (not_found_msg (path_name path));; mret false
      else validate_cwd_loop rest
  end.

Definition validate_cwd : M bool :=
  validate_cwd_loop [PATH_ROOT </> "src"; PATH_CONFIG].

(** ** Helpers *)

Definition QtVersion_lookup (key : string) : M QtVersion :=
  match QtVersion_getitem key with
  | Some v => mret v
  | None => raise (KeyError key)
  end.

Definition get_qt_versions (args : Namespace) : M (list QtVersion) :=
  t ← getattr "target" (target args);
  targets ← (if bool_decide (t ≠ "all") then mret [t]
             else c ← Config_new; mret (cfg_targets c));
  if bool_decide ("anki21" ∈ targets) then mret [qt5; qt6]
  else py_listcomp QtVersion_lookup targets.

(** ** Entry points *)

Definition nl : string := String (Ascii.ascii_of_nat 10) "".

Definition build_task_line (cnt total : nat) : string :=
  nl +:+ "=== Build task " +:+ pretty cnt +:+ "/" +:+ pretty total +:+ " ===".

Definition build (args : Namespace) : M PyVal :=
  qt_versions ← get_qt_versions args;
  d ← getattr "dist" (dist args);
  let dists := if bool_decide (d ≠ "all") then [d] else DIST_TYPES in
  v ← getattr "version" (version args);
  builder ← AddonBuilder v;
  let total := length dists in
  py_for dists (λ dist cnt,
    logging_info (build_task_line cnt total);;
    builder_build builder qt_versions dist;;
    mret (cnt + 1)) 1;;
  mret PyNone.

Definition ui (args : Namespace) : M PyVal :=
  qt_versions ← get_qt_versions args;
  builder ← UIBuilder PATH_ROOT;
  let total := length qt_versions in
  py_for qt_versions (λ qt_version cnt,
    logging_info (build_task_line cnt total +:+ nl);;
    updating (call_ui_build qt_version) (uibuilder_build builder qt_version);;
    mret (cnt + 1)) 1;;
  logging_info (nl +:+ "=== Writing Qt compatibility shim ===");;
  updating call_create_qt_shim (uibuilder_create_qt_shim builder);;
  logging_info "Done.";;
  mret PyNone.

Definition all_dist_msg : string :=
  "'all' is not supported as a dist_type value when building the manifest.".

Definition manifest (args : Namespace) : M PyVal :=
  v ← getattr "version" (version args);
  version ← Git_parse_version v;
  addon_properties ← Config_new;
  dist_type ← getattr "dist" (dist args);
  if bool_decide (dist_type = "all") then
    print all_dist_msg;; mret (PyBool false)
  else
    generate_and_write_manifest addon_properties version dist_type
      (PATH_ROOT </> "src" </> cfg_module_name addon_properties);;
    mret PyNone.

Definition create_dist (args : Namespace) : M PyVal :=
  v ← getattr "version" (version args);
  builder ← AddonBuilder v;
  builder_create_dist builder;;
  mret PyNone.

Definition build_dist (args : Namespace) : M PyVal :=
  qt_versions ← get_qt_versions args;
  d ← getattr "dist" (dist args);
  let dists := if bool_decide (d ≠ "all") then [d] else DIST_TYPES in
  v ← getattr "version" (version args);
  builder ← AddonBuilder v;
  let total := length dists in
  py_for dists (λ dist cnt,
    logging_info (build_task_line cnt total);;
    builder_build_dist builder qt_versions dist;;
    mret (cnt + 1)) 1;;
  mret PyNone.

Definition package_dist (args : Namespace) : M PyVal :=
  qt_versions ← get_qt_versions args;
  d ← getattr "dist" (dist args);
  let dists := if bool_decide (d ≠ "all") then [d] else DIST_TYPES in
  v ← getattr "version" (version args);
  builder ← AddonBuilder v;
  let total := length dists in
  py_for dists (λ dist cnt,
    logging_info (build_task_line cnt total);;
    builder_package_dist builder qt_versions dist;;
    mret (cnt + 1)) 1;;
  mret PyNone.

Definition clean (args : Namespace) : M PyVal := clean_repo.

(** ** Argument parsing *)

(** The default [func] of the top-level parser prints the usage line. *)
Definition print_usage : M PyVal := emit EvUsage;; mret PyNone.

(** [args.func(args)], with [func] as [construct_parser] sets it for each
    sub-command. *)
Definition call_func (args : Namespace) : M PyVal :=
  match func args with
  | cmd_usage => print_usage
  | cmd_build => build args
  | cmd_ui => ui args
  | cmd_manifest => manifest args
  | cmd_clean => clean args
  | cmd_create_dist => create_dist args
  | cmd_build_dist => build_dist args
  | cmd_package_dist => package_dist args
  end.

(** ** Main *)

Definition deprecation_msg : string :=
  "WARNING: 'anki21' is deprecated as a target type. Please use 'all' instead if targeting both qt6 and qt5 Anki builds.".

(** [main] from the point where [parser.parse_args()] has returned [args]. *)
Definition main (args : Namespace) : M () :=
  print COPYRIGHT_MSG;;
  valid ← validate_cwd;
  (if negb valid then sys_exit 1 else mret ());;
  emit (EvLogConfig (verbose args));;
  args ← (match target args with
          | Some t =>
              if bool_decide (t = "anki21") then
                print deprecation_msg;; mret (set_target args "all")
              else mret args
          | None => mret args
          end);
  call_func args;;
  mret ().

(** [main] from its first line.  [parser.parse_args()] returns a namespace,
    or argparse ends the run by itself, after the banner and before the
    project root is looked at: it prints the help and raises
    [SystemExit(0)] for [-h], which the parser of [construct_parser] has by
    default, and it prints the usage with the error and raises
    [SystemExit(2)] for a command line it rejects. *)
Definition main_entry (p : Parse) : M () :=
  match p with
  | parse_ok args => main args
  | parse_help => print COPYRIGHT_MSG;; emit EvUsage;; sys_exit 0
  | parse_error => print COPYRIGHT_MSG;; emit EvUsage;; sys_exit 2
  end.

(** The three commands [build], [build_dist] and [package_dist] are the same
    driver around a different method of the builder. *)
Definition driver (mk : list QtVersion → string → Call)
    (stage : Builder → list QtVersion → string → gmap Path Node → Res () * gmap Path Node)
    (args : Namespace) : M PyVal :=
  qt_versions ← get_qt_versions args;
  d ← getattr "dist" (dist args);
  let dists := if bool_decide (d ≠ "all") then [d] else DIST_TYPES in
  v ← getattr "version" (version args);
  builder ← AddonBuilder v;
  let total := length dists in
  py_for dists (λ dist cnt,
    logging_info (build_task_line cnt total);;
    updating (mk qt_versions dist) (stage builder qt_versions dist);;
    mret (cnt + 1)) 1;;
  mret PyNone.

(** The staged tree: the help texts of [create_dist], [build_dist] and
    [package_dist] place the prepared source tree under [build/dist]. *)
Definition PATH_DIST : Path := PATH_ROOT </> "build" </> "dist".

End Cli.

(** ** Reading a trace *)

(** The channels a command works through: [dists] of the three drivers. *)
Definition dists_of (args : Namespace) : list string :=
  match dist args with
  | Some d => if bool_decide (d ≠ "all") then [d] else DIST_TYPES
  | None => []
  end.

(** The progress of a driver: the lines it logged and the units it handed
    to the builder, in order. *)
Inductive Progress := Logged (message : string) | Task (disttype : string).

#[global] Instance Progress_eq_dec : EqDecision Progress.
Proof. solve_decision. Defined.

Definition unit_of (c : Call) : option string :=
  match c with
  | call_build _ d | call_build_dist _ d | call_package_dist _ d => Some d
  | _ => None
  end.

Definition progress_of (ev : Event) : option Progress :=
  match ev with
  | EvLogInfo m => Some (Logged m)
  | EvCall c _ => Task <$> unit_of c
  | _ => None
  end.

Definition progress (tr : list Event) : list Progress := omap progress_of tr.

(** The progress of the first [k] units of a driver over [dists]. *)
Definition progress_upto (k : nat) (dists : list string) : list Progress :=
  mjoin (imap (λ i d, [Logged (build_task_line (S i) (length dists)); Task d])
              (take k dists)).

(** A driver logs its progress: of the channels of the command it has
    worked through the first [k], each with its line ahead of its unit, and
    all of them when the command returns. *)
Definition logs_progress (args : Namespace) (x : Res PyVal * World * list Event) : Prop :=
  ∃ k : nat, (k ≤ length (dists_of args))%nat ∧
    progress (trace x) = progress_upto k (dists_of args) ∧
    match result x with
    | Ret _ => k = length (dists_of args)
    | Raise _ => True
    end.




(** The event of a call to [ManifestUtils.generate_and_write_manifest]. *)
Definition writes_manifest (ev : Event) : Prop :=
  ∃ p v d t o, ev = EvCall (call_generate_and_write_manifest p v d t) o.

(** How many builders a run has constructed. *)
Definition builders_constructed (tr : list Event) : nat :=
  length (omap (λ ev, match ev with
                      | EvCall (call_AddonBuilder v) None => Some v
                      | _ => None
                      end) tr).

(** The units handed to [AddonBuilder.build], with the variants of each. *)
Definition build_units (tr : list Event) : list (list QtVersion * string) :=
  omap (λ ev, match ev with
              | EvCall (call_build qts d) _ => Some (qts, d)
              | _ => None
              end) tr.

(** The variant and channel pairs of a sequence of units, variants of one
    unit in the order of its list. *)
Definition unit_pairs (us : list (list QtVersion * string)) : list (QtVersion * string) :=
  us ≫= λ '(qts, d), (λ q, (q, d)) <$> qts.

(** No call in the trace raised. *)
Definition failure_free (tr : list Event) : Prop :=
  ∀ c e, EvCall c (Some e) ∉ tr.

(** A run in which a call that raises is the last thing that happens, and
    its exception is the outcome of the run. *)
Definition fail_stop {A} (x : Res A * World * list Event) : Prop :=
  match result x with
  | Ret _ => failure_free (trace x)
  | Raise e =>
      failure_free (trace x) ∨
      ∃ t0 c, trace x = t0 ++ [EvCall c (Some e)] ∧ failure_free t0
  end.

(** Every event of every run of [m] satisfies [Φ]. *)
Definition traced {A} (Φ : Event → Prop) (m : M A) : Prop :=
  ∀ w, Forall Φ (trace (m w)).

Definition fail_stops {A} (m : M A) : Prop := ∀ w, fail_stop (m w).

(** The namespace with the channel replaced, as when the command is run
    again for one channel. *)
Definition set_dist (args : Namespace) (d : string) : Namespace :=
  {| verbose := verbose args; target := target args; dist := Some d;
     version := version args; func := func args |}.

(** The namespace [main] hands to the command: the alias rewritten. *)
Definition alias_rewritten (args : Namespace) : Namespace :=
  if bool_decide (target args = Some "anki21") then set_target args "all" else args.

(** The line [ui] logs ahead of a variant, and the events of its loop over
    the variants [qts] when every build returns. *)
Definition ui_task_line (cnt total : nat) : string :=
  build_task_line cnt total +:+ nl.

Definition shim_line : string := nl +:+ "=== Writing Qt compatibility shim ===".

Definition ui_tasks (qts : list QtVersion) : list Event :=
  mjoin (imap (λ i qt, [EvLogInfo (ui_task_line (S i) (length qts));
                        EvCall (call_ui_build qt) None]) qts).

(** The variants a run of [ui] has built. *)
Definition ui_built (tr : list Event) : list QtVersion :=
  omap (λ ev, match ev with
              | EvCall (call_ui_build qt) None => Some qt
              | _ => None
              end) tr.

(** The calls of a trace are all among the [allowed] ones. *)
Definition calls_only (allowed : Call → Prop) (tr : list Event) : Prop :=
  Forall (λ ev, ∀ c o, ev = EvCall c o → allowed c) tr.

(** The calls every driver makes before its loop. *)
Definition setup_call (c : Call) : Prop :=
  c = call_Config ∨ ∃ v, c = call_AddonBuilder v.

(** Running a command for the channel [local] and then for the channel
    [ankiweb] gives the outcome and the files of [x]. *)
Definition as_each_channel_in_turn (cmd : Namespace → M PyVal) (args : Namespace)
    (w : World) (x : Res PyVal * World * list Event) : Prop :=
  let y := (cmd (set_dist args "local");; cmd (set_dist args "ankiweb")) w in
  result x = result y ∧ final x = final y.

(** A name that is no member of [QtVersion]. *)
Definition unknown_target (key : string) : Prop := QtVersion_getitem key = None.

(** Where the exception of a run comes from: the last call of the trace
    raised it, or it is one that satisfies [P]. *)
Definition raised_by_call_or {A} (P : Exn → Prop) (m : M A) : Prop :=
  ∀ w e, result (m w) = Raise e →
    (∃ t0 c, trace (m w) = t0 ++ [EvCall c (Some e)]) ∨ P e.

(** The events before a driver's loop: calls that construct or read, none of
    them a unit of work. *)
Definition setup_event (ev : Event) : Prop :=
  ∃ c o, ev = EvCall c o ∧ unit_of c = None.

(** ** A concrete project, for the examples *)

Definition staged_dir : Path := ["build"; "dist"].

Definition demo_externals : Externals := {|
  Builder := string;
  UIBuilderObj := Path;
  COPYRIGHT_MSG := "Anki Add-on Builder";
  PATH_ROOT := [];
  PATH_CONFIG := ["addon.json"];
  MANIFEST_FILE := "manifest.json";
  AddonBuilder_init := λ v i, vcs_resolve i v;
  stage_create_dist := λ b files, (Ret (), <[staged_dir := Dir]> files);
  stage_build_dist := λ b qts d files,
    if bool_decide (is_Some (files !! staged_dir)) then
      (Ret (), <[staged_dir </> "built" := File (b +:+ "-" +:+ d)]> files)
    else (Raise (ExternalError "NotStaged"), files);
  stage_package_dist := λ b qts d files,
    (Ret (), <[["build"; b +:+ "-" +:+ d +:+ ".ankiaddon"] := File "archive"]> files);
  UIBuilder_init := λ root i, Ret root;
  uibuilder_build := λ u qt files,
    (Ret (), <[u </> "gui" </> QtVersion_name qt := Dir]> files);
  uibuilder_create_qt_shim := λ u files, (Ret (), <[u </> "gui" </> "shim" := File ""]> files);
  manifest_generate := λ c v d, Ret (cfg_module_name c +:+ " " +:+ v +:+ " " +:+ d);
  repo_clean := λ files, (Ret (PyBool true), delete staged_dir files);
|}.

Definition demo_config (targets : list string) : Config :=
  {| cfg_targets := targets; cfg_module_name := "demo" |}.

Definition demo_inputs (targets : list string) : Inputs :=
  {| config_store := Ret (demo_config targets);
     vcs_resolve := λ v, match v with
                         | Some s => if bool_decide (s = "release") then Ret "1.2.0" else Ret s
                         | None => Ret "1.2.0"
                         end |}.

Definition demo_world (targets : list string) : World :=
  {| inputs := demo_inputs targets;
     fs := {[ ["src"] := Dir; ["addon.json"] := File "{}" ]} |}.

(** A directory that is not a project: nothing to find, nothing to read. *)
Definition empty_dir : World :=
  {| inputs := {| config_store := Raise (ExternalError "addon.json");
                  vcs_resolve := λ _, Raise (ExternalError "git") |};
     fs := ∅ |}.

Definition demo_args (c : Command) (t d : string) : Namespace :=
  {| verbose := false; target := Some t; dist := Some d;
     version := Some None; func := c |}.

(** The demo project with a history that has no tag to resolve. *)
Definition untagged_world : World :=
  {| inputs := {| config_store := Ret (demo_config ["qt6"]);
                  vcs_resolve := λ _, Raise (ExternalError "NoReleaseFound") |};
     fs := {[ ["src"] := Dir; ["addon.json"] := File "{}" ]} |}.

(** The demo project with properties whose loading trips over an
    attribute. *)
Definition broken_config_world : World :=
  {| inputs := {| config_store := Raise (AttributeError "json");
                  vcs_resolve := λ _, Ret "1.2.0" |};
     fs := {[ ["src"] := Dir; ["addon.json"] := File "{}" ]} |}.

Definition ui_args (t : string) : Namespace :=
  {| verbose := false; target := Some t; dist := None;
     version := None; func := cmd_ui |}.

Definition manifest_args (d : string) : Namespace :=
  {| verbose := false; target := None; dist := Some d;
     version := Some None; func := cmd_manifest |}.

(** * Properties *)

Section Properties.
Context {E : Externals}.

(** ** Running a computation *)

Lemma run_bind {A B} (m : M A) (f : A → M B) (w : World) :
  (m ≫= f) w =
  match m w with
  | (Ret a, w1, t1) => let '(r, w2, t2) := f a w1 in (r, w2, t1 ++ t2)
  | (Raise e, w1, t1) => (Raise e, w1, t1)
  end.
Proof. reflexivity. Qed.

Lemma run_bind_proj {A B} (m : M A) (f : A → M B) (w : World) :
  (m ≫= f) w =
  match result (m w) with
  | Ret a =>
      let y := f a (final (m w)) in (result y, final y, trace (m w) ++ trace y)
  | Raise e => (Raise e, final (m w), trace (m w))
  end.
Proof.
  rewrite run_bind. destruct (m w) as [[[a|e] w1] t1]; [|done].
  cbn. by destruct (f a w1) as [[r w2] t2].
Qed.

Lemma run_ret_bind {A B} (a : A) (f : A → M B) (w : World) :
  (mret a ≫= f) w = f a w.
Proof. rewrite run_bind. cbn. by destruct (f a w) as [[r w2] t2]. Qed.

Lemma run_emit_bind {B} (ev : Event) (f : () → M B) (w : World) :
  (emit ev ≫= f) w = (result (f () w), final (f () w), ev :: trace (f () w)).
Proof. rewrite run_bind. cbn. by destruct (f () w) as [[r w2] t2]. Qed.

Lemma run_raise_bind {A B} (e : Exn) (f : A → M B) (w : World) :
  (raise e ≫= f) w = (Raise e, w, []).
Proof. reflexivity. Qed.

Lemma run_path_exists_bind {B} (p : Path) (f : bool → M B) (w : World) :
  (path_exists p ≫= f) w = f (bool_decide (is_Some (fs w !! p))) w.
Proof.
  rewrite run_bind. unfold path_exists.
  by destruct (f (bool_decide (is_Some (fs w !! p))) w) as [[r w2] t2].
Qed.

Lemma run_reading_bind {A B} (c : Call) (g : Inputs → Res A) (f : A → M B) w :
  (reading c g ≫= f) w =
  match g (inputs w) with
  | Ret a => (result (f a w), final (f a w), EvCall c None :: trace (f a w))
  | Raise e => (Raise e, w, [EvCall c (Some e)])
  end.
Proof.
  rewrite run_bind. unfold reading. destruct (g (inputs w)) as [a|e]; [|done].
  cbn. by destruct (f a w) as [[r w2] t2].
Qed.

(** ** Parsed arguments *)

(** A parsed namespace has the attributes its command reads. *)
Lemma parsed_attributes (args : Namespace) :
  parsed args = true →
  match func args with
  | cmd_build | cmd_create_dist | cmd_build_dist | cmd_package_dist =>
      is_Some (target args) ∧ is_Some (dist args) ∧ is_Some (version args)
  | cmd_ui => is_Some (target args)
  | cmd_manifest => is_Some (dist args) ∧ is_Some (version args)
  | cmd_usage | cmd_clean => True
  end.
Proof.
  destruct args as [vb [t|] [d|] [v|] []];
    unfold parsed, parsed_by, construct_parser; cbn;
    rewrite ?andb_false_r; cbn; try done; eauto.
Qed.

(** ** Target expansion *)

Lemma QtVersion_getitem_name (v : QtVersion) :
  QtVersion_getitem (QtVersion_name v) = Some v.
Proof. by destruct v. Qed.

Lemma QtVersion_name_not_alias (vs : list QtVersion) :
  "anki21" ∉ map QtVersion_name vs.
Proof.
  induction vs as [|v vs IH]; [apply not_elem_of_nil|].
  intros [Hv|Hv]%elem_of_cons; [by destruct v | done].
Qed.

Lemma py_listcomp_names (vs : list QtVersion) (w : World) :
  py_listcomp QtVersion_lookup (map QtVersion_name vs) w = (Ret vs, w, []).
Proof.
  induction vs as [|v vs IH]; [done|].
  cbn [map py_listcomp]. rewrite run_bind. unfold QtVersion_lookup at 1.
  rewrite QtVersion_getitem_name. cbn. rewrite run_bind, IH. done.
Qed.

(** What [get_qt_versions] does once [Config()] has returned the
    properties [c] for the selector [all]. *)
Lemma get_qt_versions_all (args : Namespace) (w : World) (c : Config) :
  target args = Some "all" →
  config_store (inputs w) = Ret c →
  get_qt_versions args w =
  let x := (if bool_decide ("anki21" ∈ cfg_targets c) then mret [qt5; qt6]
            else py_listcomp QtVersion_lookup (cfg_targets c)) w in
  (result x, final x, EvCall call_Config None :: trace x).
Proof.
  intros Ht Hc. unfold get_qt_versions. rewrite Ht. cbn [getattr].
  rewrite run_ret_bind.
  assert (bool_decide ("all" ≠ "all") = false) as -> by done.
  rewrite run_bind. unfold Config_new. rewrite run_reading_bind, Hc.
  cbn. by case_bool_decide; [|destruct (py_listcomp _ _ w) as [[r w2] t2]].
Qed.

(** C9: for a selector that names one concrete variant, [get_qt_versions]
    returns exactly that variant, never calls [Config()], and so returns the
    same list whatever the configuration store holds. *)
Theorem concrete_target_ignores_config (v : QtVersion) (args : Namespace) (w1 w2 : World) :
  let args' := set_target args (QtVersion_name v) in
  get_qt_versions args' w1 = (Ret [v], w1, []) ∧
  result (get_qt_versions args' w1) = result (get_qt_versions args' w2).
Proof. by destruct v. Qed.

Lemma get_qt_versions_all_alias (args : Namespace) (w : World) (c : Config) :
  target args = Some "all" →
  config_store (inputs w) = Ret c →
  "anki21" ∈ cfg_targets c →
  result (get_qt_versions args w) = Ret [qt5; qt6].
Proof.
  intros Ht Hc Hin. rewrite (get_qt_versions_all _ _ _ Ht Hc).
  by rewrite bool_decide_eq_true_2.
Qed.

Lemma get_qt_versions_all_names (args : Namespace) (w : World) (c : Config)
    (vs : list QtVersion) :
  target args = Some "all" →
  config_store (inputs w) = Ret c →
  cfg_targets c = map QtVersion_name vs →
  result (get_qt_versions args w) = Ret vs.
Proof.
  intros Ht Hc Hvs. rewrite (get_qt_versions_all _ _ _ Ht Hc), Hvs.
  rewrite bool_decide_eq_false_2 by apply QtVersion_name_not_alias.
  by rewrite py_listcomp_names.
Qed.

(** C4, as the code has it: with the selector [all] the variants are those
    the configuration store lists under [targets], in the order of that
    list; a list that contains the legacy name [anki21] stands for
    [qt5; qt6]. *)
Theorem all_targets_follow_config (args : Namespace) (w : World) (c : Config) :
  target args = Some "all" →
  config_store (inputs w) = Ret c →
  ("anki21" ∈ cfg_targets c → result (get_qt_versions args w) = Ret [qt5; qt6]) ∧
  (∀ vs, cfg_targets c = map QtVersion_name vs →
         result (get_qt_versions args w) = Ret vs).
Proof.
  intros Ht Hc. split.
  - by apply get_qt_versions_all_alias.
  - intros vs. by apply get_qt_versions_all_names.
Qed.

(** ** Invariants of traces *)

Lemma traced_ret {A} (Φ : Event → Prop) (a : A) : traced Φ (mret a).
Proof. intros w. constructor. Qed.

Lemma traced_raise {A} (Φ : Event → Prop) (e : Exn) : traced Φ (raise (A := A) e).
Proof. intros w. constructor. Qed.

Lemma traced_bind {A B} (Φ : Event → Prop) (m : M A) (f : A → M B) :
  traced Φ m → (∀ a, traced Φ (f a)) → traced Φ (m ≫= f).
Proof.
  intros Hm Hf w. rewrite run_bind. specialize (Hm w).
  destruct (m w) as [[[a|e] w1] t1]; [|done].
  specialize (Hf a w1). destruct (f a w1) as [[r w2] t2].
  by apply Forall_app.
Qed.

Lemma traced_emit (Φ : Event → Prop) (ev : Event) : Φ ev → traced Φ (emit ev).
Proof. intros Hev w. by repeat constructor. Qed.

Lemma traced_reading {A} (Φ : Event → Prop) (c : Call) (g : Inputs → Res A) :
  (∀ o, Φ (EvCall c o)) → traced Φ (reading c g).
Proof. intros Hc w. by repeat constructor. Qed.

Lemma traced_updating {A} (Φ : Event → Prop) (c : Call) (g : gmap Path Node → Res A * gmap Path Node) :
  (∀ o, Φ (EvCall c o)) → traced Φ (updating c g).
Proof.
  intros Hc w. unfold updating. destruct (g (fs w)) as [r fs'].
  by repeat constructor.
Qed.

Lemma traced_getattr {A} (Φ : Event → Prop) (name : string) (o : option A) : traced Φ (getattr name o).
Proof. destruct o; [apply traced_ret | apply traced_raise]. Qed.

Lemma traced_path_exists (Φ : Event → Prop) (p : Path) : traced Φ (path_exists p).
Proof. intros w. constructor. Qed.

Lemma traced_py_for {X S} (Φ : Event → Prop) (xs : list X) (body : X → S → M S) s :
  (∀ x s, traced Φ (body x s)) → traced Φ (py_for xs body s).
Proof.
  intros Hbody. revert s.
  induction xs as [|x xs IH]; intros s; [apply traced_ret|].
  apply traced_bind; [apply Hbody | apply IH].
Qed.

Lemma traced_py_listcomp {X Y} (Φ : Event → Prop) (f : X → M Y) (xs : list X) :
  (∀ x, traced Φ (f x)) → traced Φ (py_listcomp f xs).
Proof.
  intros Hf. induction xs as [|x xs IH]; [apply traced_ret|].
  apply traced_bind; [apply Hf | intros y].
  apply traced_bind; [apply IH | intros ys; apply traced_ret].
Qed.

Lemma traced_if {A} (Φ : Event → Prop) (b : bool) (m1 m2 : M A) :
  traced Φ m1 → traced Φ m2 → traced Φ (if b then m1 else m2).
Proof. by destruct b. Qed.

Lemma traced_QtVersion_lookup (Φ : Event → Prop) (key : string) : traced Φ (QtVersion_lookup key).
Proof.
  unfold QtVersion_lookup.
  destruct (QtVersion_getitem key); [apply traced_ret | apply traced_raise].
Qed.

(** Splits a goal [traced Φ m] along the structure of [m]; what remains are
    the events [m] emits and the calls it makes. *)
Ltac traced_step :=
  first
    [ apply traced_ret | apply traced_raise | apply traced_getattr
    | apply traced_path_exists | apply traced_QtVersion_lookup
    | apply traced_bind; [|intros ?]
    | apply traced_if
    | apply traced_py_for; intros ? ?
    | apply traced_py_listcomp; intros ?
    | apply traced_emit
    | apply traced_reading; intros ?
    | apply traced_updating; intros ? ].

Ltac traced_split := repeat traced_step.

Lemma failure_free_nil : failure_free [].
Proof. intros c e. apply not_elem_of_nil. Qed.

Lemma failure_free_app (t1 t2 : list Event) :
  failure_free (t1 ++ t2) ↔ failure_free t1 ∧ failure_free t2.
Proof.
  unfold failure_free. split.
  - intros Hf. split; intros c e Hin; apply (Hf c e), elem_of_app; auto.
  - intros [H1 H2] c e [Hin|Hin]%elem_of_app; [by apply (H1 c e) | by apply (H2 c e)].
Qed.

Lemma failure_free_singleton (ev : Event) :
  (∀ c e, ev ≠ EvCall c (Some e)) → failure_free [ev].
Proof. intros Hev c e Hin%list_elem_of_singleton. by apply (Hev c e). Qed.

Lemma fail_stops_ret {A} (a : A) : fail_stops (mret a).
Proof. intros w. apply failure_free_nil. Qed.

Lemma fail_stops_raise {A} (e : Exn) : fail_stops (raise (A := A) e).
Proof. intros w. left. apply failure_free_nil. Qed.

Lemma fail_stops_bind {A B} (m : M A) (f : A → M B) :
  fail_stops m → (∀ a, fail_stops (f a)) → fail_stops (m ≫= f).
Proof.
  intros Hm Hf w. rewrite run_bind. specialize (Hm w). unfold fail_stop in *.
  destruct (m w) as [[[a|e] w1] t1]; [|done]. cbn in Hm.
  specialize (Hf a w1). unfold fail_stop in Hf.
  destruct (f a w1) as [[[b|e] w2] t2]; cbn in *.
  - by apply failure_free_app.
  - destruct Hf as [Hf|(t0 & c & -> & Hf)].
    + left. by apply failure_free_app.
    + right. exists (t1 ++ t0), c. split; [by rewrite (assoc_L (++))|].
      by apply failure_free_app.
Qed.

Lemma fail_stops_emit (ev : Event) :
  (∀ c e, ev ≠ EvCall c (Some e)) → fail_stops (emit ev).
Proof. intros Hev w. by apply failure_free_singleton. Qed.

Lemma fail_stops_reading {A} (c : Call) (g : Inputs → Res A) : fail_stops (reading c g).
Proof.
  intros w. unfold fail_stop, reading. cbn.
  destruct (g (inputs w)) as [a|e]; cbn.
  - by apply failure_free_singleton.
  - right. exists [], c. split; [done | apply failure_free_nil].
Qed.

Lemma fail_stops_updating {A} (c : Call) (g : gmap Path Node → Res A * gmap Path Node) :
  fail_stops (updating c g).
Proof.
  intros w. unfold fail_stop, updating.
  destruct (g (fs w)) as [[a|e] fs']; cbn.
  - by apply failure_free_singleton.
  - right. exists [], c. split; [done | apply failure_free_nil].
Qed.

Lemma fail_stops_getattr {A} (name : string) (o : option A) : fail_stops (getattr name o).
Proof. destruct o; [apply fail_stops_ret | apply fail_stops_raise]. Qed.

Lemma fail_stops_path_exists (p : Path) : fail_stops (path_exists p).
Proof. intros w. apply failure_free_nil. Qed.

Lemma fail_stops_if {A} (b : bool) (m1 m2 : M A) :
  fail_stops m1 → fail_stops m2 → fail_stops (if b then m1 else m2).
Proof. by destruct b. Qed.

Lemma fail_stops_py_for {X S} (xs : list X) (body : X → S → M S) s :
  (∀ x s, fail_stops (body x s)) → fail_stops (py_for xs body s).
Proof.
  intros Hbody. revert s.
  induction xs as [|x xs IH]; intros s; [apply fail_stops_ret|].
  apply fail_stops_bind; [apply Hbody | apply IH].
Qed.

Lemma fail_stops_py_listcomp {X Y} (f : X → M Y) (xs : list X) :
  (∀ x, fail_stops (f x)) → fail_stops (py_listcomp f xs).
Proof.
  intros Hf. induction xs as [|x xs IH]; [apply fail_stops_ret|].
  apply fail_stops_bind; [apply Hf | intros y].
  apply fail_stops_bind; [apply IH | intros ys; apply fail_stops_ret].
Qed.

Lemma fail_stops_QtVersion_lookup (key : string) : fail_stops (QtVersion_lookup key).
Proof.
  unfold QtVersion_lookup.
  destruct (QtVersion_getitem key); [apply fail_stops_ret | apply fail_stops_raise].
Qed.

Ltac fail_stops_step :=
  first
    [ apply fail_stops_ret | apply fail_stops_raise | apply fail_stops_getattr
    | apply fail_stops_path_exists | apply fail_stops_QtVersion_lookup
    | apply fail_stops_reading | apply fail_stops_updating
    | apply fail_stops_bind; [|intros ?]
    | apply fail_stops_if
    | apply fail_stops_py_for; intros ? ?
    | apply fail_stops_py_listcomp; intros ?
    | apply fail_stops_emit; intros ? ?; discriminate ].

Ltac fail_stops_split := repeat fail_stops_step.

(** In a fail-stop run a raising call closes the trace. *)
Lemma fail_stop_split {A} (x : Res A * World * list Event)
    (tr1 : list Event) (c : Call) (e : Exn) (tr2 : list Event) :
  fail_stop x →
  trace x = tr1 ++ EvCall c (Some e) :: tr2 →
  tr2 = [] ∧ result x = Raise e.
Proof.
  unfold fail_stop. intros Hx Htr.
  assert (EvCall c (Some e) ∈ trace x) as Hin.
  { rewrite Htr. apply elem_of_app. right. apply elem_of_cons. by left. }
  destruct (result x) as [a|e'].
  { by destruct (Hx c e). }
  destruct Hx as [Hx|(t0 & c' & Ht0 & Hff)]; [by destruct (Hx c e)|].
  rewrite Ht0 in Htr.
  destruct tr2 as [|ev tr2 _] using rev_ind.
  - apply app_inj_tail in Htr as [_ [= -> ->]]. done.
  - rewrite app_comm_cons, (assoc_L (++)) in Htr.
    apply app_inj_tail in Htr as [-> _].
    destruct (Hff c e). apply elem_of_app. right. apply elem_of_cons. by left.
Qed.

Lemma call_func_fail_stops (args : Namespace) : fail_stops (call_func args).
Proof.
  unfold call_func. destruct (func args).
  - unfold print_usage. fail_stops_split.
  - unfold build, builder_build, AddonBuilder, get_qt_versions, Config_new.
    fail_stops_split.
  - unfold ui, UIBuilder, get_qt_versions, Config_new. fail_stops_split.
  - unfold manifest, generate_and_write_manifest, Git_parse_version, Config_new, print.
    fail_stops_split.
  - unfold clean, clean_repo. fail_stops_split.
  - unfold create_dist, builder_create_dist, AddonBuilder. fail_stops_split.
  - unfold build_dist, builder_build_dist, AddonBuilder, get_qt_versions, Config_new.
    fail_stops_split.
  - unfold package_dist, builder_package_dist, AddonBuilder, get_qt_versions, Config_new.
    fail_stops_split.
Qed.

(** ** The sequential driver *)

Lemma build_is_driver (args : Namespace) :
  build args = driver call_build stage_build args.
Proof. reflexivity. Qed.

Lemma build_dist_is_driver (args : Namespace) :
  build_dist args = driver call_build_dist stage_build_dist args.
Proof. reflexivity. Qed.

Lemma package_dist_is_driver (args : Namespace) :
  package_dist args = driver call_package_dist stage_package_dist args.
Proof. reflexivity. Qed.

Lemma progress_app (t1 t2 : list Event) :
  progress (t1 ++ t2) = progress t1 ++ progress t2.
Proof. apply omap_app. Qed.

Lemma build_units_app (t1 t2 : list Event) :
  build_units (t1 ++ t2) = build_units t1 ++ build_units t2.
Proof. apply omap_app. Qed.

Lemma setup_progress (t : list Event) : Forall setup_event t → progress t = [].
Proof.
  induction 1 as [|ev t (c & o & -> & Hc) _ IH]; [done|].
  unfold progress in *. cbn. by rewrite Hc, IH.
Qed.

Lemma setup_build_units (t : list Event) : Forall setup_event t → build_units t = [].
Proof.
  induction 1 as [|ev t (c & o & -> & Hc) _ IH]; [done|].
  unfold build_units in *. cbn. rewrite IH. by destruct c.
Qed.

Lemma py_listcomp_lookup_run (targets : list string) (w w0 : World) :
  py_listcomp QtVersion_lookup targets w =
  (result (py_listcomp QtVersion_lookup targets w0), w, []).
Proof.
  induction targets as [|t ts IH]; [done|].
  cbn [py_listcomp]. rewrite !run_bind. unfold QtVersion_lookup at 1 3.
  destruct (QtVersion_getitem t) as [v|]; [|done].
  cbn. rewrite !run_bind, IH.
  by destruct (py_listcomp QtVersion_lookup ts w0) as [[[vs|e] w2] t2].
Qed.

(** [get_qt_versions] reads the inputs and nothing else. *)
Lemma get_qt_versions_run (args : Namespace) (w w0 : World) :
  inputs w = inputs w0 →
  get_qt_versions args w =
  (result (get_qt_versions args w0), w, trace (get_qt_versions args w0)).
Proof.
  intros Hi. unfold get_qt_versions.
  destruct (target args) as [t|]; [|done]. cbn [getattr]. rewrite !run_ret_bind.
  case_bool_decide.
  - rewrite !run_ret_bind. case_bool_decide; [done|].
    rewrite (py_listcomp_lookup_run _ w w0).
    by rewrite (py_listcomp_lookup_run _ w0 w0).
  - rewrite !(run_bind (Config_new ≫= _)). unfold Config_new.
    rewrite !run_reading_bind, Hi.
    destruct (config_store (inputs w0)) as [c|e]; [|done].
    cbn. case_bool_decide; [done|].
    rewrite (py_listcomp_lookup_run _ w w0).
    by rewrite (py_listcomp_lookup_run _ w0 w0).
Qed.

Lemma get_qt_versions_setup (args : Namespace) :
  traced setup_event (get_qt_versions args).
Proof.
  unfold get_qt_versions, Config_new. traced_split. by eexists _, _.
Qed.

(** One task of a driver: the progress line, then the unit. *)
Lemma task_run (line : string) (c : Call)
    (g : gmap Path Node → Res () * gmap Path Node) (cnt : nat) (w : World) :
  (logging_info line;; updating c g;; mret (cnt + 1)) w =
  match g (fs w) with
  | (Ret _, fs') =>
      (Ret (cnt + 1), {| inputs := inputs w; fs := fs' |},
       [EvLogInfo line; EvCall c None])
  | (Raise e, fs') =>
      (Raise e, {| inputs := inputs w; fs := fs' |},
       [EvLogInfo line; EvCall c (Some e)])
  end.
Proof.
  unfold logging_info. rewrite run_emit_bind, run_bind. unfold updating.
  by destruct (g (fs w)) as [[[]|e] fs'].
Qed.

(** The loop of a driver over the channels [ds], counting from [cnt]. *)
Lemma tasks_progress (mk : string → Call)
    (stage : string → gmap Path Node → Res () * gmap Path Node)
    (total : nat) (ds : list string) (cnt : nat) (w : World) :
  (∀ d, unit_of (mk d) = Some d) →
  let x := py_for ds (λ dist cnt,
             logging_info (build_task_line cnt total);;
             updating (mk dist) (stage dist);;
             mret (cnt + 1)) cnt w in
  ∃ k : nat, (k ≤ length ds)%nat ∧
       progress (trace x) =
         mjoin (imap (λ i d, [Logged (build_task_line (cnt + i) total); Task d])
                     (take k ds)) ∧
       match result x with Ret _ => k = length ds | Raise _ => True end.
Proof.
  intros Hmk. revert cnt w. induction ds as [|d ds IH]; intros cnt w x.
  { exists 0. by subst x. }
  subst x. cbn [py_for]. rewrite run_bind, task_run.
  destruct (stage d (fs w)) as [[[]|e] fs'] eqn:Hstage.
  - destruct (IH (cnt + 1) {| inputs := inputs w; fs := fs' |}) as (k & Hk & Hp & Hr).
    destruct (py_for ds _ _ _) as [[r w2] t2]. cbn in *.
    exists (S k). split; [lia|]. split; [|destruct r; [by f_equal | done]].
    unfold progress in *. cbn. rewrite Hmk. cbn. rewrite Hp.
    rewrite Nat.add_0_r.
    do 3 f_equal; apply imap_ext; intros i d' _; cbn; by rewrite <-Nat.add_assoc.
  - exists 1. split; [cbn; lia|]. split; [|done].
    unfold progress. cbn. rewrite Hmk. cbn. by rewrite Nat.add_0_r.
Qed.

(** A run of a driver either fails while it sets up, or sets up and runs the
    loop over the channels. *)
Lemma driver_run (mk : list QtVersion → string → Call)
    (stage : Builder → list QtVersion → string → gmap Path Node → Res () * gmap Path Node)
    (args : Namespace) (w : World) :
  (∃ e t, driver mk stage args w = (Raise e, w, t) ∧ Forall setup_event t) ∨
  (∃ qts v b t,
      result (get_qt_versions args w) = Ret qts ∧
      version args = Some v ∧
      AddonBuilder_init v (inputs w) = Ret b ∧
      Forall setup_event t ∧
      let total := length (dists_of args) in
      let y := py_for (dists_of args) (λ dist cnt,
                 logging_info (build_task_line cnt total);;
                 updating (mk qts dist) (stage b qts dist);;
                 mret (cnt + 1)) 1 w in
      driver mk stage args w =
      (match result y with Ret _ => Ret PyNone | Raise e => Raise e end,
       final y, t ++ trace y)).
Proof.
  unfold driver. rewrite run_bind_proj.
  pose proof (get_qt_versions_setup args w) as Hsetup.
  assert (final (get_qt_versions args w) = w) as ->
    by by rewrite (get_qt_versions_run args w w eq_refl).
  set (t1 := trace (get_qt_versions args w)) in *.
  destruct (result (get_qt_versions args w)) as [qts|e]; [|left; eauto].
  cbn zeta. unfold dists_of.
  destruct (dist args) as [d|]; cbn [getattr];
    [|left; eexists _, _; by rewrite app_nil_r].
  rewrite run_ret_bind.
  destruct (version args) as [v|]; cbn [getattr];
    [|left; eexists _, _; by rewrite app_nil_r].
  rewrite run_ret_bind. unfold AddonBuilder. rewrite run_reading_bind.
  destruct (AddonBuilder_init v (inputs w)) as [b|e] eqn:Hb.
  - right. exists qts, v, b, (t1 ++ [EvCall (call_AddonBuilder v) None]).
    split_and!; [done..| |].
    { apply Forall_app. split; [done|]. repeat constructor. by eexists _, _. }
    cbn zeta. rewrite run_bind_proj.
    destruct (result (py_for _ _ 1 w)); cbn; by rewrite <-?(assoc_L (++)), ?app_nil_r.
  - left. exists e, (t1 ++ [EvCall (call_AddonBuilder v) (Some e)]). split; [done|].
    apply Forall_app. split; [done|]. repeat constructor. by eexists _, _.
Qed.

(** The progress of a driver: the line and the unit of each of the first [k]
    channels, and of all of them when the command returns. *)
Lemma driver_progress (mk : list QtVersion → string → Call)
    (stage : Builder → list QtVersion → string → gmap Path Node → Res () * gmap Path Node)
    (args : Namespace) (w : World) :
  (∀ qts d, unit_of (mk qts d) = Some d) →
  let x := driver mk stage args w in
  ∃ k : nat, (k ≤ length (dists_of args))%nat ∧
       progress (trace x) = progress_upto k (dists_of args) ∧
       match result x with Ret _ => k = length (dists_of args) | Raise _ => True end.
Proof.
  intros Hmk x. subst x.
  destruct (driver_run mk stage args w)
    as [(e & t & -> & Hs)|(qts & v & b & t & _ & _ & _ & Hs & ->)].
  { exists 0. split; [lia|]. split; [|done].
    unfold trace at 1. cbn [snd]. by rewrite (setup_progress _ Hs). }
  destruct (tasks_progress (mk qts) (stage b qts) (length (dists_of args))
              (dists_of args) 1 w (Hmk qts)) as (k & Hk & Hp & Hr).
  exists k. split; [done|]. unfold trace at 1, result at 1. cbn [fst snd]. split.
  - rewrite progress_app, (setup_progress _ Hs). done.
  - by destruct (result _).
Qed.

Lemma progress_upto_S (n : nat) (ds : list string) (d : string) :
  ds !! n = Some d →
  progress_upto (S n) ds =
  progress_upto n ds ++ [Logged (build_task_line (S n) (length ds)); Task d].
Proof.
  intros Hd. unfold progress_upto.
  rewrite (take_S_r _ _ _ Hd), imap_app, join_app. cbn.
  rewrite length_take_le by (apply lookup_lt_Some in Hd; lia).
  by rewrite Nat.add_0_r.
Qed.

(** Only the three drivers hand units to the builder. *)
Lemma no_units_outside_drivers (args : Namespace) :
  func args ∉ [cmd_build; cmd_build_dist; cmd_package_dist] →
  traced (λ ev, ∀ c o, ev = EvCall c o → unit_of c = None) (call_func args).
Proof.
  intros Hf. unfold call_func.
  destruct (func args);
    try (exfalso; apply Hf; solve [repeat constructor]).
  - unfold print_usage. traced_split. done.
  - unfold ui, UIBuilder, get_qt_versions, Config_new, logging_info.
    traced_split; by intros ?? [= <- <-].
  - unfold manifest, generate_and_write_manifest, Git_parse_version, Config_new, print.
    traced_split; by intros ?? [= <- <-].
  - unfold clean, clean_repo. traced_split; by intros ?? [= <- <-].
  - unfold create_dist, builder_create_dist, AddonBuilder.
    traced_split; by intros ?? [= <- <-].
Qed.

Lemma call_func_progress (args : Namespace) (w : World) :
  func args ∈ [cmd_build; cmd_build_dist; cmd_package_dist] →
  logs_progress args (call_func args w).
Proof.
  intros Hf. unfold call_func.
  destruct (func args);
    try (rewrite ?build_is_driver, ?build_dist_is_driver, ?package_dist_is_driver;
         by apply driver_progress);
    repeat (apply elem_of_cons in Hf as [Hf|Hf]; [discriminate|]);
    by apply elem_of_nil in Hf.
Qed.

(** C2, as the code has it: no command catches an exception.  A call that
    raises is the last thing the command does, so no later unit is
    attempted, and the command ends with that exception; when the call is a
    unit of a driver, the last line logged before it is the progress line of
    that unit, which gives its position among the channels. *)
Theorem failing_call_ends_the_run (args : Namespace) (w : World)
    (tr1 : list Event) (c : Call) (e : Exn) (tr2 : list Event) :
  trace (call_func args w) = tr1 ++ EvCall c (Some e) :: tr2 →
  tr2 = [] ∧
  result (call_func args w) = Raise e ∧
  match unit_of c with
  | Some d =>
      ∃ n : nat, dists_of args !! n = Some d ∧
        last (progress tr1) =
          Some (Logged (build_task_line (S n) (length (dists_of args))))
  | None => True
  end.
Proof.
  intros Htr.
  destruct (fail_stop_split _ _ _ _ _ (call_func_fail_stops args w) Htr) as [-> Hres].
  split_and!; [done..|].
  destruct (unit_of c) as [d|] eqn:Hc; [|done].
  destruct (decide (func args ∈ [cmd_build; cmd_build_dist; cmd_package_dist]))
    as [Hf|Hf].
  - destruct (call_func_progress args w Hf) as (k & Hk & Hp & _).
    rewrite Htr, progress_app in Hp. unfold progress at 2 in Hp.
    cbn in Hp. rewrite Hc in Hp. cbn in Hp.
    destruct k as [|n].
    { by destruct (progress tr1). }
    destruct (lookup_lt_is_Some_2 (dists_of args) n) as [d' Hd']; [lia|].
    rewrite (progress_upto_S _ _ _ Hd') in Hp.
    change [Logged ?l; Task d'] with ([Logged l] ++ [Task d']) in Hp.
    rewrite (assoc_L (++)) in Hp.
    apply app_inj_tail in Hp as [Hp [= ->]].
    exists n. split; [done|]. rewrite Hp. apply last_snoc.
  - pose proof (no_units_outside_drivers args Hf w) as Hall.
    rewrite Htr in Hall. apply Forall_app in Hall as [_ Hall].
    apply Forall_cons in Hall as [Hall _].
    rewrite (Hall c (Some e) eq_refl) in Hc. done.
Qed.

(** C1, as the code has it: for the selectors [all] and [all], in a project
    whose configuration gives both variants, [build] hands the builder two
    units and no more: the channel [local] and then the channel [ankiweb],
    each with the whole list [qt5; qt6]; exactly these two when the command
    returns.  The units are a function of the arguments and the
    configuration, whatever the files. *)
Theorem build_all_all_units (args : Namespace) (w : World) (c : Config) :
  target args = Some "all" →
  dist args = Some "all" →
  config_store (inputs w) = Ret c →
  "anki21" ∈ cfg_targets c ∨ cfg_targets c = ["qt5"; "qt6"] →
  ∃ k : nat, (k ≤ 2)%nat ∧
    build_units (trace (build args w)) =
      take k [([qt5; qt6], "local"); ([qt5; qt6], "ankiweb")] ∧
    match result (build args w) with Ret _ => k = 2 | Raise _ => True end.
Proof.
  intros Ht Hd Hc Htargets. rewrite build_is_driver.
  destruct (driver_run call_build stage_build args w)
    as [(e & t & -> & Hs)|(qts & v & b & t & Hq & _ & _ & Hs & ->)].
  { exists 0. split; [lia|]. split; [|done].
    unfold trace. cbn [snd]. by rewrite (setup_build_units _ Hs). }
  assert (qts = [qt5; qt6]) as ->.
  { destruct Htargets as [Hin|Heq].
    - rewrite (get_qt_versions_all_alias args w c Ht Hc Hin) in Hq. by injection Hq.
    - rewrite (get_qt_versions_all_names args w c [qt5; qt6] Ht Hc Heq) in Hq.
      by injection Hq. }
  unfold dists_of. rewrite Hd.
  assert (bool_decide ("all" ≠ "all") = false) as -> by done.
  unfold DIST_TYPES. cbn [py_for length].
  unfold trace at 1, result at 1. cbn [fst snd].
  rewrite build_units_app, (setup_build_units _ Hs).
  rewrite run_bind, task_run.
  destruct (stage_build b _ "local" (fs w)) as [[[]|e1] fs1].
  - rewrite run_bind, task_run. cbn [fs].
    destruct (stage_build b _ "ankiweb" fs1) as [[[]|e2] fs2].
    + exists 2. by cbn.
    + exists 2. by cbn.
  - exists 1. split; [lia|]. by cbn.
Qed.

(** ** The entry point *)

Lemma path_name_join (p : Path) (s : string) : path_name (p </> s) = s.
Proof. apply last_last. Qed.

Lemma validate_cwd_run (w : World) :
  validate_cwd w =
  if bool_decide (is_Some (fs w !! (PATH_ROOT </> "src"))) then
    if bool_decide (is_Some (fs w !! PATH_CONFIG)) then (Ret true, w, [])
    else (Ret false, w, [EvPrint (not_found_msg (path_name PATH_CONFIG))])
  else (Ret false, w, [EvPrint (not_found_msg "src")]).
Proof.
  unfold validate_cwd. cbn [validate_cwd_loop]. unfold print.
  rewrite run_path_exists_bind.
  destruct (bool_decide (is_Some (fs w !! (PATH_ROOT </> "src")))); cbn [negb].
  - rewrite run_path_exists_bind.
    destruct (bool_decide (is_Some (fs w !! PATH_CONFIG))); cbn [negb]; [done|].
    by rewrite run_emit_bind.
  - by rewrite run_emit_bind, path_name_join.
Qed.

(** [main] in a valid project root: the banner, the logging set-up, the
    notice when the target is the alias, then the command. *)
Lemma main_in_project_root (args : Namespace) (w : World) :
  is_Some (fs w !! (PATH_ROOT </> "src")) →
  is_Some (fs w !! PATH_CONFIG) →
  let alias := bool_decide (target args = Some "anki21") in
  let args' := if alias then set_target args "all" else args in
  let y := call_func args' w in
  main args w =
  (match result y with Ret _ => Ret () | Raise e => Raise e end,
   final y,
   [EvPrint COPYRIGHT_MSG; EvLogConfig (verbose args)]
     ++ (if alias then [EvPrint deprecation_msg] else []) ++ trace y).
Proof.
  intros Hsrc Hcfg. unfold main, print.
  rewrite run_emit_bind, run_bind, validate_cwd_run.
  rewrite !bool_decide_eq_true_2 by done. cbn [negb].
  rewrite run_ret_bind, run_emit_bind, run_bind_proj.
  destruct (target args) as [t|] eqn:Ht.
  - case_bool_decide as Ht'; simplify_eq.
    + rewrite bool_decide_eq_true_2 by done.
      rewrite run_emit_bind. cbn. rewrite run_bind_proj.
      destruct (result (call_func _ w)); cbn; by rewrite ?app_nil_r.
    + rewrite bool_decide_eq_false_2 by congruence.
      cbn. rewrite run_bind_proj. destruct (result (call_func _ w)); cbn; by rewrite ?app_nil_r.
  - cbn. rewrite run_bind_proj. destruct (result (call_func _ w)); cbn; by rewrite ?app_nil_r.
Qed.

Lemma call_func_no_notice (args : Namespace) :
  traced (λ ev, ev ≠ EvPrint deprecation_msg) (call_func args).
Proof.
  unfold call_func.
  destruct (func args);
    unfold print_usage, build, ui, manifest, clean, create_dist, build_dist,
      package_dist, builder_build, builder_create_dist, builder_build_dist,
      builder_package_dist, clean_repo, generate_and_write_manifest,
      AddonBuilder, UIBuilder, Git_parse_version, get_qt_versions, Config_new,
      logging_info, print;
    traced_split; done.
Qed.


(** ** The manifest command *)

Lemma run_updating_bind {A B : Type} (c : Call)
    (g : gmap Path Node → Res A * gmap Path Node) (f : A → M B) (w : World) :
  (updating c g ≫= f) w =
  let w1 := {| inputs := inputs w; fs := (g (fs w)).2 |} in
  match (g (fs w)).1 with
  | Ret a => (result (f a w1), final (f a w1), EvCall c None :: trace (f a w1))
  | Raise e => (Raise e, w1, [EvCall c (Some e)])
  end.
Proof.
  rewrite run_bind. unfold updating. destruct (g (fs w)) as [[a|e] fs']; [|done].
  cbn. by destruct (f a _) as [[r w2] t2].
Qed.

(** The run of [manifest], case by case. *)
Lemma manifest_run (args : Namespace) (w : World) (v : option string) (d : string) :
  version args = Some v →
  dist args = Some d →
  manifest args w =
  match vcs_resolve (inputs w) v with
  | Raise e => (Raise e, w, [EvCall (call_parse_version v) (Some e)])
  | Ret ver =>
      match config_store (inputs w) with
      | Raise e =>
          (Raise e, w,
           [EvCall (call_parse_version v) None; EvCall call_Config (Some e)])
      | Ret c =>
          if bool_decide (d = "all") then
            (Ret (PyBool false), w,
             [EvCall (call_parse_version v) None; EvCall call_Config None;
              EvPrint all_dist_msg])
          else
            let target_dir := PATH_ROOT </> "src" </> cfg_module_name c in
            let s := write_manifest c ver d target_dir (fs w) in
            (match s.1 with Ret _ => Ret PyNone | Raise e => Raise e end,
             {| inputs := inputs w; fs := s.2 |},
             [EvCall (call_parse_version v) None; EvCall call_Config None;
              EvCall (call_generate_and_write_manifest c ver d target_dir)
                     (raised s.1)])
      end
  end.
Proof.
  intros Hv Hd. unfold manifest. rewrite Hv, Hd. cbn [getattr].
  rewrite run_ret_bind. unfold Git_parse_version. rewrite run_reading_bind.
  destruct (vcs_resolve (inputs w) v) as [ver|e]; [|done].
  unfold Config_new. rewrite run_reading_bind.
  destruct (config_store (inputs w)) as [c|e]; [|done].
  rewrite run_ret_bind. case_bool_decide.
  - unfold print. by rewrite run_emit_bind.
  - unfold generate_and_write_manifest. rewrite run_updating_bind.
    cbn zeta. by destruct (write_manifest _ _ _ _ _).1.
Qed.

(** C6, as the code has it: when [manifest] succeeds, the manifest is the
    file [MANIFEST_FILE] in the module directory of the source tree of the
    project root, [PATH_ROOT/src/<module_name>], which is not inside the
    staged tree [build/dist]; the file holds the new manifest whatever was
    there before, and no other path changes. *)
Theorem manifest_written_in_source_tree (args : Namespace) (w : World)
    (v : option string) (ver : string) (c : Config) (d m : string) :
  version args = Some v →
  vcs_resolve (inputs w) v = Ret ver →
  config_store (inputs w) = Ret c →
  dist args = Some d →
  d ≠ "all" →
  manifest_generate c ver d = Ret m →
  let x := manifest args w in
  let file := PATH_ROOT </> "src" </> cfg_module_name c </> MANIFEST_FILE in
  result x = Ret PyNone ∧
  fs (final x) !! file = Some (File m) ∧
  (∀ p : Path, p ≠ file → fs (final x) !! p = fs w !! p) ∧
  ¬ PATH_DIST `prefix_of` file.
Proof.
  intros Hv Hver Hc Hd Hall Hm x file. subst x.
  rewrite (manifest_run args w v d Hv Hd), Hver, Hc.
  rewrite bool_decide_eq_false_2 by done.
  cbn zeta. unfold write_manifest. rewrite Hm. cbn.
  split_and!; [done| | |].
  - apply lookup_insert_eq.
  - intros p Hp. by apply lookup_insert_ne.
  - intros [k Hk]. subst file. unfold PATH_DIST, path_join in Hk.
    rewrite <-!(assoc_L (++)) in Hk. by apply app_inv_head in Hk.
Qed.

(** ** The stages of the pipeline *)

(** A driver for one concrete channel, once the variants are known and the
    builder is constructed: one task. *)
Lemma driver_single (mk : list QtVersion → string → Call)
    (stage : Builder → list QtVersion → string → gmap Path Node → Res () * gmap Path Node)
    (args : Namespace) (w : World) (qts : list QtVersion) (d : string)
    (v : option string) (b : Builder) :
  dist args = Some d →
  d ≠ "all" →
  result (get_qt_versions args w) = Ret qts →
  version args = Some v →
  AddonBuilder_init v (inputs w) = Ret b →
  let s := stage b qts d (fs w) in
  driver mk stage args w =
  (match s.1 with Ret _ => Ret PyNone | Raise e => Raise e end,
   {| inputs := inputs w; fs := s.2 |},
   trace (get_qt_versions args w)
     ++ [EvCall (call_AddonBuilder v) None; EvLogInfo (build_task_line 1 1);
         EvCall (mk qts d) (raised s.1)]).
Proof.
  intros Hd Hall Hq Hv Hb s. subst s. unfold driver.
  rewrite run_bind_proj, Hq.
  assert (final (get_qt_versions args w) = w) as ->
    by by rewrite (get_qt_versions_run args w w eq_refl).
  cbn zeta. rewrite Hd, Hv. cbn [getattr]. rewrite !run_ret_bind.
  unfold AddonBuilder. rewrite run_reading_bind, Hb.
  rewrite bool_decide_eq_true_2 by done. cbn [py_for length].
  rewrite run_bind_proj, run_bind, task_run.
  by destruct (stage b qts d (fs w)) as [[[]|e] fs'].
Qed.

Lemma create_dist_run (args : Namespace) (w : World) (v : option string) (b : Builder) :
  version args = Some v →
  AddonBuilder_init v (inputs w) = Ret b →
  let s := stage_create_dist b (fs w) in
  create_dist args w =
  (match s.1 with Ret _ => Ret PyNone | Raise e => Raise e end,
   {| inputs := inputs w; fs := s.2 |},
   [EvCall (call_AddonBuilder v) None; EvCall call_create_dist (raised s.1)]).
Proof.
  intros Hv Hb s. subst s. unfold create_dist, AddonBuilder, builder_create_dist.
  rewrite Hv. cbn [getattr]. rewrite run_ret_bind, run_reading_bind, Hb.
  rewrite run_updating_bind. cbn zeta.
  by destruct (stage_create_dist b (fs w)) as [[[]|e] fs'].
Qed.

(** Without a version attribute or a builder, the commands end before any
    stage. *)
Lemma driver_no_builder (mk : list QtVersion → string → Call)
    (stage : Builder → list QtVersion → string → gmap Path Node → Res () * gmap Path Node)
    (args : Namespace) (w : World) (qts : list QtVersion) (d : string) :
  dist args = Some d →
  result (get_qt_versions args w) = Ret qts →
  match version args with
  | None => True
  | Some v => ∃ e, AddonBuilder_init v (inputs w) = Raise e
  end →
  ∃ t, driver mk stage args w =
       (match version args with
        | None => Raise (AttributeError "version")
        | Some v => match AddonBuilder_init v (inputs w) with
                    | Raise e => Raise e
                    | Ret _ => Ret PyNone
                    end
        end, w, t).
Proof.
  intros Hd Hq Hv. unfold driver.
  rewrite run_bind_proj, Hq.
  assert (final (get_qt_versions args w) = w) as ->
    by by rewrite (get_qt_versions_run args w w eq_refl).
  cbn zeta. rewrite Hd. cbn [getattr]. rewrite run_ret_bind.
  destruct (version args) as [v|]; cbn [getattr].
  - destruct Hv as [e He]. rewrite run_ret_bind. unfold AddonBuilder.
    rewrite run_reading_bind, He. eauto.
  - rewrite run_raise_bind. eauto.
Qed.

Lemma create_dist_no_builder (args : Namespace) (w : World) :
  match version args with
  | None => True
  | Some v => ∃ e, AddonBuilder_init v (inputs w) = Raise e
  end →
  ∃ t, create_dist args w =
       (match version args with
        | None => Raise (AttributeError "version")
        | Some v => match AddonBuilder_init v (inputs w) with
                    | Raise e => Raise e
                    | Ret _ => Ret PyNone
                    end
        end, w, t).
Proof.
  intros Hv. unfold create_dist.
  destruct (version args) as [v|]; cbn [getattr].
  - destruct Hv as [e He]. rewrite run_ret_bind. unfold AddonBuilder.
    rewrite run_reading_bind, He. eauto.
  - rewrite run_raise_bind. eauto.
Qed.

Lemma get_qt_versions_constructs_nothing (args : Namespace) (w : World) :
  builders_constructed (trace (get_qt_versions args w)) = 0.
Proof.
  unfold builders_constructed.
  assert (traced (λ ev, ∃ o, ev = EvCall call_Config o) (get_qt_versions args)) as Ht.
  { unfold get_qt_versions, Config_new. traced_split. by eexists. }
  specialize (Ht w). induction Ht as [|ev t [o ->] _ IH]; [done|]. by cbn.
Qed.

(** C7: for one concrete channel, [build] leaves the same files and the same
    outcome as the commands [create_dist], [build_dist] and [package_dist]
    run one after the other, each starting from the files the one before
    left and stopping at the first that fails.  Nothing else passes between
    the three: each constructs its own builder from its arguments, so a
    sequence that returns has constructed three builders where [build]
    constructed one.  [AddonBuilder.build] is as the spec has it. *)
Theorem build_is_the_three_stages (args : Namespace) (w : World)
    (qts : list QtVersion) (d : string) :
  dist args = Some d →
  d ≠ "all" →
  result (get_qt_versions args w) = Ret qts →
  let x := build args w in
  let y := (create_dist args;; build_dist args;; package_dist args) w in
  result x = result y ∧
  final x = final y ∧
  match result y with
  | Ret _ =>
      builders_constructed (trace x) = 1 ∧ builders_constructed (trace y) = 3
  | Raise _ => True
  end.
Proof.
  intros Hd Hall Hq x y. subst x y.
  rewrite build_is_driver, build_dist_is_driver, package_dist_is_driver.
  assert (match version args with
          | None => True
          | Some v => ∃ e, AddonBuilder_init v (inputs w) = Raise e
          end ∨ ∃ v b, version args = Some v ∧ AddonBuilder_init v (inputs w) = Ret b)
    as [Hnone|(v & b & Hv & Hb)].
  { destruct (version args) as [v|]; [|by left].
    destruct (AddonBuilder_init v (inputs w)) as [b|e] eqn:Hb; [right|left]; eauto. }
  { destruct (driver_no_builder call_build stage_build args w qts d Hd Hq Hnone)
      as [t ->].
    destruct (create_dist_no_builder args w Hnone) as [t' Hc].
    rewrite (run_bind_proj (create_dist args)), Hc. cbn.
    destruct (version args) as [v|]; [|done].
    destruct Hnone as [e ->]. done. }
  rewrite (driver_single call_build stage_build args w qts d v b) by done.
  rewrite (run_bind_proj (create_dist args)), (create_dist_run args w v b) by done.
  unfold stage_build.
  destruct (stage_create_dist b (fs w)) as [[[]|e1] fs1]; cbn -[driver];
    [|done].
  set (w1 := {| inputs := inputs w; fs := fs1 |}).
  assert (get_qt_versions args w1 = (Ret qts, w1, trace (get_qt_versions args w)))
    as Hq1 by by rewrite (get_qt_versions_run args w1 w eq_refl), Hq.
  rewrite (run_bind_proj (driver _ _ _)).
  rewrite (driver_single call_build_dist stage_build_dist args w1 qts d v b)
    by (by rewrite ?Hq1).
  rewrite Hq1. cbn -[driver].
  destruct (stage_build_dist b qts d fs1) as [[[]|e2] fs2]; cbn -[driver];
    [|done].
  set (w2 := {| inputs := inputs w; fs := fs2 |}).
  assert (get_qt_versions args w2 = (Ret qts, w2, trace (get_qt_versions args w)))
    as Hq2 by by rewrite (get_qt_versions_run args w2 w eq_refl), Hq.
  rewrite (driver_single call_package_dist stage_package_dist args w2 qts d v b)
    by (by rewrite ?Hq2).
  rewrite Hq2. cbn.
  destruct (stage_package_dist b qts d fs2) as [[[]|e3] fs3]; cbn; [|done].
  split_and!; [done..| |].
  - unfold builders_constructed. rewrite omap_app, length_app.
    fold (builders_constructed (trace (get_qt_versions args w))).
    by rewrite get_qt_versions_constructs_nothing.
  - unfold builders_constructed. cbn. rewrite !omap_app, !length_app.
    fold (builders_constructed (trace (get_qt_versions args w))).
    by rewrite get_qt_versions_constructs_nothing.
Qed.

(** * Further properties of the module *)

(** ** [get_qt_versions] *)

Lemma py_listcomp_unknown (vs : list QtVersion) (bad : string) (rest : list string)
    (w : World) :
  unknown_target bad →
  py_listcomp QtVersion_lookup (map QtVersion_name vs ++ bad :: rest) w =
  (Raise (KeyError bad), w, []).
Proof.
  intros Hbad. induction vs as [|v vs IH].
  - cbn [map app py_listcomp]. rewrite run_bind. unfold QtVersion_lookup at 1.
    by rewrite Hbad.
  - cbn [map app py_listcomp]. rewrite run_bind. unfold QtVersion_lookup at 1.
    rewrite QtVersion_getitem_name. cbn. by rewrite run_bind, IH.
Qed.

(** X1: a name that is no member of [QtVersion] makes [get_qt_versions]
    raise [KeyError] for that name: the selector itself when it is given on
    the command line, and the first such name of the configured targets for
    the selector [all], unless the list contains [anki21]. *)
Theorem get_qt_versions_unknown_name (args : Namespace) (w : World) (bad : string) :
  unknown_target bad →
  bad ≠ "anki21" →
  (bad ≠ "all" → target args = Some bad →
   result (get_qt_versions args w) = Raise (KeyError bad)) ∧
  (∀ c vs rest,
     target args = Some "all" →
     config_store (inputs w) = Ret c →
     cfg_targets c = map QtVersion_name vs ++ bad :: rest →
     "anki21" ∉ rest →
     result (get_qt_versions args w) = Raise (KeyError bad)).
Proof.
  intros Hbad Halias. split.
  - intros Hall Ht. unfold get_qt_versions. rewrite Ht. cbn [getattr].
    rewrite run_ret_bind, bool_decide_eq_true_2 by done.
    rewrite run_ret_bind, bool_decide_eq_false_2.
    2: { intros Hin%list_elem_of_singleton. done. }
    pose proof (py_listcomp_unknown [] bad [] w Hbad) as Hl.
    cbn [map app] in Hl. by rewrite Hl.
  - intros c vs rest Ht Hc Htargets Hrest.
    rewrite (get_qt_versions_all _ _ _ Ht Hc), Htargets.
    rewrite bool_decide_eq_false_2.
    2: { intros [Hin|Hin]%elem_of_app.
         - by apply (QtVersion_name_not_alias vs).
         - apply elem_of_cons in Hin as [Hin|Hin]; [by symmetry in Hin | done]. }
    by rewrite (py_listcomp_unknown vs bad rest w Hbad).
Qed.

(** X2: [get_qt_versions] never changes the files, and it calls [Config()]
    once for the selector [all] and not at all for any other selector, the
    alias [anki21] included. *)
Theorem get_qt_versions_effects (args : Namespace) (w : World) :
  final (get_qt_versions args w) = w ∧
  trace (get_qt_versions args w) =
    match target args with
    | Some t =>
        if bool_decide (t = "all")
        then [EvCall call_Config (raised (config_store (inputs w)))]
        else []
    | None => []
    end.
Proof.
  split; [by rewrite (get_qt_versions_run args w w eq_refl)|].
  unfold get_qt_versions. destruct (target args) as [t|]; [|done].
  cbn [getattr]. rewrite run_ret_bind. case_bool_decide as Ht.
  - rewrite bool_decide_eq_false_2 by done.
    rewrite run_ret_bind. case_bool_decide; [done|].
    by rewrite (py_listcomp_lookup_run _ w w).
  - rewrite bool_decide_eq_true_2 by done.
    rewrite (run_bind_proj (Config_new ≫= _)). unfold Config_new.
    rewrite run_reading_bind.
    destruct (config_store (inputs w)) as [c|e]; [|done].
    cbn. case_bool_decide; [done|].
    by rewrite (py_listcomp_lookup_run _ w w).
Qed.

(** X3: when the target does not expand, [build], [build_dist],
    [package_dist] and [ui] end with the exception of [get_qt_versions]
    before they construct a builder or hand it anything: the files are as
    they were and the trace is the one of the expansion. *)
Theorem failed_expansion_stops_the_command (args : Namespace) (w : World) (e : Exn) :
  result (get_qt_versions args w) = Raise e →
  let stopped := (Raise e, w, trace (get_qt_versions args w)) in
  build args w = stopped ∧ build_dist args w = stopped ∧
  package_dist args w = stopped ∧ ui args w = stopped.
Proof.
  intros Hq stopped. subst stopped.
  assert (final (get_qt_versions args w) = w) as Hfin
    by by rewrite (get_qt_versions_run args w w eq_refl).
  rewrite build_is_driver, build_dist_is_driver, package_dist_is_driver.
  unfold driver, ui. rewrite !run_bind_proj, Hq, Hfin. done.
Qed.

(** ** [validate_cwd] *)

(** X4: [validate_cwd] returns [True] exactly when the source directory and
    the configuration file both exist, and then prints nothing; otherwise it
    prints one line, for the source directory when that is missing, whether
    or not the configuration file is there, and for the configuration file
    only when the source directory exists.  It changes nothing. *)
Theorem validate_cwd_reports_first_missing (w : World) :
  let src := bool_decide (is_Some (fs w !! (PATH_ROOT </> "src"))) in
  let cfg := bool_decide (is_Some (fs w !! PATH_CONFIG)) in
  validate_cwd w =
  (Ret (src && cfg), w,
   if src then
     if cfg then [] else [EvPrint (not_found_msg (path_name PATH_CONFIG))]
   else [EvPrint (not_found_msg "src")]).
Proof.
  cbn zeta. rewrite validate_cwd_run.
  by destruct (bool_decide _), (bool_decide _).
Qed.

(** ** [manifest] *)

(** X5: [manifest] resolves the version first and loads the properties
    second.  When the version does not resolve, the command ends with that
    exception without having called [Config()]; when the properties do not
    load, it ends with that one.  In both cases the channel is not looked
    at, so the selector [all] is not reported, and nothing is written. *)
Theorem manifest_fails_before_the_channel (args : Namespace) (w : World)
    (v : option string) (e : Exn) :
  version args = Some v →
  (vcs_resolve (inputs w) v = Raise e →
   manifest args w = (Raise e, w, [EvCall (call_parse_version v) (Some e)])) ∧
  (∀ ver, vcs_resolve (inputs w) v = Ret ver →
          config_store (inputs w) = Raise e →
          manifest args w =
          (Raise e, w, [EvCall (call_parse_version v) None;
                        EvCall call_Config (Some e)])).
Proof.
  intros Hv. unfold manifest, Git_parse_version, Config_new.
  rewrite Hv. cbn [getattr]. rewrite run_ret_bind, run_reading_bind. split.
  - by intros ->.
  - intros ver -> Hc. by rewrite run_reading_bind, Hc.
Qed.

(** ** [main] *)

Lemma main_not_in_project_root (args : Namespace) (w : World) (t : list Event) :
  validate_cwd w = (Ret false, w, t) →
  main args w = (Raise (SystemExit 1), w, EvPrint COPYRIGHT_MSG :: t).
Proof.
  intros Hv. unfold main, print, sys_exit.
  rewrite run_emit_bind, run_bind, Hv. cbn [negb].
  rewrite run_raise_bind. cbn. by rewrite app_nil_r.
Qed.

(** X6: in a project root [main] discards what the command returns: it
    returns, with exit status 0, whenever the command returns, whatever the
    value ([False] from [manifest] included), and it ends with the command's
    exception otherwise; the files are those the command left. *)
Theorem main_ignores_the_return_value (args : Namespace) (w : World) :
  is_Some (fs w !! (PATH_ROOT </> "src")) →
  is_Some (fs w !! PATH_CONFIG) →
  let y := call_func (alias_rewritten args) w in
  final (main args w) = final y ∧
  match result y with
  | Ret _ => result (main args w) = Ret () ∧ exit_status (result (main args w)) = 0%Z
  | Raise e => result (main args w) = Raise e
  end.
Proof.
  intros Hsrc Hcfg y. subst y. unfold alias_rewritten.
  rewrite (main_in_project_root args w Hsrc Hcfg). cbn zeta.
  split; [done|]. by destruct (result (call_func _ w)).
Qed.

Lemma not_found_msg_not_notice (dir : string) : not_found_msg dir ≠ deprecation_msg.
Proof. unfold not_found_msg, deprecation_msg. cbn. discriminate. Qed.

(** X7: after the banner, [main] prints the deprecation notice exactly when
    the target is [anki21] and the run is in a project root: not for any
    other target, not for a command without a target, and not when the
    project root check fails. *)
Theorem notice_only_for_the_alias (args : Namespace) (w : World) :
  EvPrint deprecation_msg ∈ drop 1 (trace (main args w)) ↔
  target args = Some "anki21" ∧
  is_Some (fs w !! (PATH_ROOT </> "src")) ∧ is_Some (fs w !! PATH_CONFIG).
Proof.
  destruct (decide (is_Some (fs w !! (PATH_ROOT </> "src")))) as [Hsrc|Hsrc];
    [destruct (decide (is_Some (fs w !! PATH_CONFIG))) as [Hcfg|Hcfg]|].
  - rewrite (main_in_project_root args w Hsrc Hcfg). cbn zeta.
    unfold trace at 1. cbn [snd app drop].
    pose proof (call_func_no_notice
      (if bool_decide (target args = Some "anki21") then set_target args "all" else args) w)
      as Hno.
    rewrite Forall_forall in Hno.
    case_bool_decide as Ht; split.
    + done.
    + intros _. apply elem_of_cons. right. apply elem_of_cons. by left.
    + intros Hin. apply elem_of_cons in Hin as [[=]|Hin].
      cbn [app] in Hin. by destruct (Hno _ Hin).
    + by intros [? _].
  - rewrite (main_not_in_project_root args w
               [EvPrint (not_found_msg (path_name PATH_CONFIG))]).
    2: { rewrite validate_cwd_run. rewrite bool_decide_eq_true_2 by done.
         by rewrite bool_decide_eq_false_2. }
    unfold trace. cbn [snd drop]. split; [|by intros (_ & _ & ?)].
    intros Hin%list_elem_of_singleton. exfalso.
    apply (not_found_msg_not_notice (path_name PATH_CONFIG)). congruence.
  - rewrite (main_not_in_project_root args w [EvPrint (not_found_msg "src")]).
    2: { rewrite validate_cwd_run. by rewrite bool_decide_eq_false_2. }
    unfold trace. cbn [snd drop]. split; [|by intros (_ & ? & _)].
    intros Hin%list_elem_of_singleton. exfalso.
    apply (not_found_msg_not_notice "src"). congruence.
Qed.

(** ** [ui] *)

(** The loop of a driver or of [ui], by outcome: the whole alternation of
    lines and calls when it returns, and the alternation up to the call that
    raised otherwise. *)
Lemma tasks_run_cases {X : Type} (line : nat → string) (mk : X → Call)
    (stage : X → gmap Path Node → Res () * gmap Path Node)
    (xs : list X) (cnt : nat) (w : World) :
  let x := py_for xs (λ y cnt,
             logging_info (line cnt);;
             updating (mk y) (stage y);;
             mret (cnt + 1)) cnt w in
  inputs (final x) = inputs w ∧
  match result x with
  | Ret _ =>
      trace x = mjoin (imap (λ i y, [EvLogInfo (line (cnt + i)); EvCall (mk y) None]) xs)
  | Raise e =>
      ∃ (k : nat) (y : X), xs !! k = Some y ∧
        trace x =
          mjoin (imap (λ i y, [EvLogInfo (line (cnt + i)); EvCall (mk y) None])
                      (take k xs))
          ++ [EvLogInfo (line (cnt + k)); EvCall (mk y) (Some e)]
  end.
Proof.
  revert cnt w. induction xs as [|a xs IH]; intros cnt w x; subst x; [done|].
  cbn [py_for]. rewrite run_bind, task_run.
  destruct (stage a (fs w)) as [[[]|e] fs'].
  - destruct (IH (cnt + 1) {| inputs := inputs w; fs := fs' |}) as [Hi Ht].
    destruct (py_for xs _ _ _) as [[r w2] t2]. cbn in *.
    split; [done|]. destruct r as [n|e].
    + rewrite Nat.add_0_r, Ht. do 3 f_equal.
      apply imap_ext. intros i y _. cbn. by rewrite <-Nat.add_assoc.
    + destruct Ht as (k & y & Hy & ->). exists (S k), y. split; [done|].
      cbn. rewrite Nat.add_0_r. replace (cnt + 1 + k) with (cnt + S k) by lia.
      do 2 f_equal. f_equal. f_equal.
      apply imap_ext. intros i z _. cbn. by rewrite <-Nat.add_assoc.
  - cbn. split; [done|]. exists 0, a. split; [done|]. cbn. by rewrite Nat.add_0_r.
Qed.

Lemma ui_closing_run (u : UIBuilderObj) (w : World) :
  (logging_info shim_line;;
   updating call_create_qt_shim (uibuilder_create_qt_shim u);;
   logging_info "Done.";;
   mret PyNone) w =
  let s := uibuilder_create_qt_shim u (fs w) in
  (match s.1 with Ret _ => Ret PyNone | Raise e => Raise e end,
   {| inputs := inputs w; fs := s.2 |},
   [EvLogInfo shim_line; EvCall call_create_qt_shim (raised s.1)]
     ++ match s.1 with Ret _ => [EvLogInfo "Done."] | Raise _ => [] end).
Proof.
  unfold logging_info. rewrite run_emit_bind, run_updating_bind. cbn zeta.
  destruct (uibuilder_create_qt_shim u (fs w)) as [[[]|e] fs']; cbn [fst snd raised];
    [|done].
  by rewrite run_emit_bind.
Qed.

(** The run of [ui], case by case. *)
Lemma ui_run (args : Namespace) (w : World) :
  let tq := trace (get_qt_versions args w) in
  match result (get_qt_versions args w) with
  | Raise e => ui args w = (Raise e, w, tq)
  | Ret qts =>
      match UIBuilder_init PATH_ROOT (inputs w) with
      | Raise e =>
          ui args w = (Raise e, w, tq ++ [EvCall (call_UIBuilder PATH_ROOT) (Some e)])
      | Ret u =>
          let x := py_for qts (λ qt cnt,
                     logging_info (ui_task_line cnt (length qts));;
                     updating (call_ui_build qt) (uibuilder_build u qt);;
                     mret (cnt + 1)) 1 w in
          match result x with
          | Raise e =>
              ui args w =
              (Raise e, final x,
               tq ++ EvCall (call_UIBuilder PATH_ROOT) None :: trace x)
          | Ret _ =>
              let s := uibuilder_create_qt_shim u (fs (final x)) in
              ui args w =
              (match s.1 with Ret _ => Ret PyNone | Raise e => Raise e end,
               {| inputs := inputs (final x); fs := s.2 |},
               tq ++ EvCall (call_UIBuilder PATH_ROOT) None :: trace x
                  ++ [EvLogInfo shim_line; EvCall call_create_qt_shim (raised s.1)]
                  ++ match s.1 with Ret _ => [EvLogInfo "Done."] | Raise _ => [] end)
          end
      end
  end.
Proof.
  cbn zeta. unfold ui. rewrite run_bind_proj.
  assert (final (get_qt_versions args w) = w) as ->
    by by rewrite (get_qt_versions_run args w w eq_refl).
  destruct (result (get_qt_versions args w)) as [qts|e]; [|done].
  cbn zeta. unfold UIBuilder. rewrite run_reading_bind.
  destruct (UIBuilder_init PATH_ROOT (inputs w)) as [u|e]; [|done].
  rewrite run_bind_proj.
  fold (ui_task_line).
  change (λ (qt_version : QtVersion) (cnt : nat),
            logging_info (build_task_line cnt (length qts) +:+ nl);;
            updating (call_ui_build qt_version) (uibuilder_build u qt_version);;
            mret (cnt + 1))
    with (λ (qt : QtVersion) (cnt : nat),
            logging_info (ui_task_line cnt (length qts));;
            updating (call_ui_build qt) (uibuilder_build u qt);;
            mret (cnt + 1)).
  destruct (result (py_for qts _ 1 w)) as [n|e]; cbn zeta; [|done].
  rewrite ui_closing_run. unfold result, final, trace. cbn [fst snd].
  by rewrite <-?(assoc_L (++)).
Qed.

(** X8: a run of [ui] that returns has, after the expansion of the target
    and the construction of the builder, built every variant once, in the
    order of the expansion and each behind its line "Build task N/total"
    (N from 1, total the number of variants), then written the Qt shim once
    and logged that it is done; it returns [None]. *)
Theorem ui_returns_after_all_variants (args : Namespace) (w : World) (v : PyVal) :
  result (ui args w) = Ret v →
  ∃ qts : list QtVersion,
    result (get_qt_versions args w) = Ret qts ∧
    v = PyNone ∧
    trace (ui args w) =
      trace (get_qt_versions args w)
      ++ EvCall (call_UIBuilder PATH_ROOT) None :: ui_tasks qts
      ++ [EvLogInfo shim_line; EvCall call_create_qt_shim None; EvLogInfo "Done."].
Proof.
  intros Hret. pose proof (ui_run args w) as Hrun. cbn zeta in Hrun.
  destruct (result (get_qt_versions args w)) as [qts|e];
    [|by rewrite Hrun in Hret].
  destruct (UIBuilder_init PATH_ROOT (inputs w)) as [u|e];
    [|by rewrite Hrun in Hret].
  pose proof (tasks_run_cases (λ cnt, ui_task_line cnt (length qts)) call_ui_build
                (uibuilder_build u) qts 1 w) as [_ Hloop].
  cbn zeta in Hloop.
  destruct (result (py_for qts _ 1 w)) as [n|e]; [|by rewrite Hrun in Hret].
  rewrite Hrun in Hret |- *. unfold result, trace in Hret |- *. cbn [fst snd] in *.
  destruct (uibuilder_create_qt_shim u _) as [[[]|e] fs']; cbn in Hret; [|done].
  exists qts. split; [done|]. split; [congruence|].
  cbn [fst snd raised]. unfold trace in Hloop. by rewrite Hloop.
Qed.

Lemma ui_built_tasks (line : nat → string) (qts : list QtVersion) :
  ui_built (mjoin (imap (λ i qt, [EvLogInfo (line i); EvCall (call_ui_build qt) None]) qts))
  = qts.
Proof.
  revert line. induction qts as [|qt qts IH]; intros line; [done|].
  rewrite imap_cons. unfold ui_built in *. cbn. f_equal. apply (IH (line ∘ S)).
Qed.

Lemma ui_built_app (t1 t2 : list Event) :
  ui_built (t1 ++ t2) = ui_built t1 ++ ui_built t2.
Proof. apply omap_app. Qed.

Lemma get_qt_versions_config_only (args : Namespace) :
  traced (λ ev, ∃ o, ev = EvCall call_Config o) (get_qt_versions args).
Proof. unfold get_qt_versions, Config_new. traced_split. by eexists. Qed.

Lemma ui_built_config (t : list Event) :
  Forall (λ ev, ∃ o, ev = EvCall call_Config o) t → ui_built t = [].
Proof. induction 1 as [|ev t [o ->] _ IH]; [done|]. by cbn. Qed.

(** Where an event stands in a list that has it once. *)
Lemma split_at_the_only (P : Event → Prop) (a1 a2 b1 b2 : list Event) (x y : Event) :
  P y →
  Forall (λ ev, ¬ P ev) a1 →
  Forall (λ ev, ¬ P ev) a2 →
  a1 ++ x :: a2 = b1 ++ y :: b2 →
  b1 = a1.
Proof.
  intros Hy Ha1 Ha2. revert b1.
  induction Ha1 as [|a a1 Ha _ IH]; intros [|b b1] Heq; cbn in Heq.
  - done.
  - injection Heq as -> ->. apply Forall_app in Ha2 as [_ Ha2].
    apply Forall_cons in Ha2 as [Ha2 _]. done.
  - injection Heq as -> _. done.
  - injection Heq as -> Heq. f_equal. by apply IH.
Qed.

(** X9: [ui] calls [create_qt_shim] only after every variant of the
    expansion has been built and its build has returned: whatever precedes
    the call in the trace has built exactly the variants of the expansion,
    in order.  A build that raises leaves the shim unwritten. *)
Theorem ui_shim_after_all_builds (args : Namespace) (w : World)
    (tr1 : list Event) (o : option Exn) (tr2 : list Event) :
  trace (ui args w) = tr1 ++ EvCall call_create_qt_shim o :: tr2 →
  ∃ qts : list QtVersion,
    result (get_qt_versions args w) = Ret qts ∧ ui_built tr1 = qts.
Proof.
  intros Htr. pose proof (ui_run args w) as Hrun. cbn zeta in Hrun.
  set (is_shim := λ ev : Event, ∃ o', ev = EvCall call_create_qt_shim o').
  assert (is_shim (EvCall call_create_qt_shim o)) as Hshim by by exists o.
  assert (∀ t, Forall (λ ev, ¬ is_shim ev) t →
               t ≠ tr1 ++ EvCall call_create_qt_shim o :: tr2) as Hnone.
  { intros t Ht ->. apply Forall_app in Ht as [_ Ht].
    apply Forall_cons in Ht as [Ht _]. done. }
  assert (Forall (λ ev, ¬ is_shim ev) (trace (get_qt_versions args w))) as Hq.
  { eapply Forall_impl; [apply (get_qt_versions_config_only args w)|].
    by intros ev [o' ->] [o'' [=]]. }
  assert (∀ (line : nat → string) (t : list Event) (qts : list QtVersion) (k : nat),
            t = mjoin (imap (λ i qt, [EvLogInfo (line i);
                                      EvCall (call_ui_build qt) None]) (take k qts)) →
            Forall (λ ev, ¬ is_shim ev) t) as Hloopfree.
  { intros line t qts k ->. generalize (take k qts) as l. intros l. revert line.
    induction l as [|qt l IH]; intros line; [constructor|].
    rewrite imap_cons. cbn. repeat constructor.
    - by intros [? [=]].
    - by intros [? [=]].
    - apply (IH (line ∘ S)). }
  destruct (result (get_qt_versions args w)) as [qts|e].
  2: { rewrite Hrun in Htr. by destruct (Hnone _ Hq). }
  destruct (UIBuilder_init PATH_ROOT (inputs w)) as [u|e].
  2: { rewrite Hrun in Htr. destruct (Hnone (trace (get_qt_versions args w)
                                            ++ [EvCall (call_UIBuilder PATH_ROOT) (Some e)])).
       - apply Forall_app. split; [done|]. repeat constructor. by intros [? [=]].
       - done. }
  pose proof (tasks_run_cases (λ cnt, ui_task_line cnt (length qts)) call_ui_build
                (uibuilder_build u) qts 1 w) as [_ Hloop].
  cbn zeta in Hloop.
  destruct (result (py_for qts _ 1 w)) as [n|e].
  - rewrite Hrun in Htr. unfold trace at 1 in Htr. cbn [snd] in Htr.
    exists qts. split; [done|].
    set (tq := trace (get_qt_versions args w)) in *.
    set (tasks := trace (py_for qts _ 1 w)) in *.
    assert (Forall (λ ev, ¬ is_shim ev) tasks) as Htasks.
    { apply (Hloopfree (λ i, ui_task_line (1 + i) (length qts)) tasks qts (length qts)).
      by rewrite take_ge. }
    assert (tr1 = tq ++ EvCall (call_UIBuilder PATH_ROOT) None :: tasks
                     ++ [EvLogInfo shim_line]) as ->.
    { eapply (split_at_the_only is_shim _ _ _ _ _ _ Hshim); [| |
        rewrite <-Htr; by rewrite <-!(assoc_L (++)), <-app_comm_cons, <-!(assoc_L (++))].
      - apply Forall_app. split; [done|]. constructor; [by intros [? [=]]|].
        apply Forall_app. split; [done|]. repeat constructor. by intros [? [=]].
      - destruct (uibuilder_create_qt_shim u _).1; repeat constructor.
        by intros [? [=]]. }
    rewrite ui_built_app, (ui_built_config tq (get_qt_versions_config_only args w)).
    cbn [app]. change (EvCall (call_UIBuilder PATH_ROOT) None :: ?l)
      with ([EvCall (call_UIBuilder PATH_ROOT) None] ++ l).
    rewrite !ui_built_app. subst tasks. rewrite Hloop.
    rewrite (ui_built_tasks (λ i, ui_task_line (1 + i) (length qts))). cbn.
    by rewrite app_nil_r.
  - rewrite Hrun in Htr. unfold trace at 1 in Htr. cbn [snd] in Htr.
    destruct Hloop as (k & qt & _ & Hloop). exfalso.
    eapply Hnone; [|exact Htr].
    apply Forall_app. split; [done|]. constructor; [by intros [? [=]]|].
    rewrite Hloop. apply Forall_app. split.
    + by apply (Hloopfree (λ i, ui_task_line (1 + i) (length qts)) _ qts k).
    + repeat constructor; by intros [? [=]].
Qed.

(** ** The drivers *)

Lemma get_qt_versions_set_dist (args : Namespace) (d : string) :
  get_qt_versions (set_dist args d) = get_qt_versions args.
Proof. reflexivity. Qed.

(** A driver for both channels, once the variants are known and the builder
    is constructed: the task of [local], then the task of [ankiweb]. *)
Lemma driver_all (mk : list QtVersion → string → Call)
    (stage : Builder → list QtVersion → string → gmap Path Node → Res () * gmap Path Node)
    (args : Namespace) (w : World) (qts : list QtVersion)
    (v : option string) (b : Builder) :
  dist args = Some "all" →
  result (get_qt_versions args w) = Ret qts →
  version args = Some v →
  AddonBuilder_init v (inputs w) = Ret b →
  let s1 := stage b qts "local" (fs w) in
  let s2 := stage b qts "ankiweb" s1.2 in
  result (driver mk stage args w) =
    match s1.1 with
    | Ret _ => match s2.1 with Ret _ => Ret PyNone | Raise e => Raise e end
    | Raise e => Raise e
    end ∧
  final (driver mk stage args w) =
    {| inputs := inputs w;
       fs := match s1.1 with Ret _ => s2.2 | Raise _ => s1.2 end |}.
Proof.
  intros Hd Hq Hv Hb s1 s2. subst s1 s2. unfold driver.
  rewrite run_bind_proj, Hq.
  assert (final (get_qt_versions args w) = w) as ->
    by by rewrite (get_qt_versions_run args w w eq_refl).
  cbn zeta. rewrite Hd, Hv. cbn [getattr]. rewrite !run_ret_bind.
  unfold AddonBuilder. rewrite run_reading_bind, Hb.
  assert (bool_decide ("all" ≠ "all") = false) as -> by done.
  unfold DIST_TYPES. cbn [py_for length].
  rewrite run_bind_proj, run_bind, task_run.
  destruct (stage b qts "local" (fs w)) as [[[]|e1] fs1]; [|done].
  rewrite run_bind, task_run. cbn [fs fst snd].
  destruct (stage b qts "ankiweb" fs1) as [[[]|e2] fs2]; by cbn.
Qed.

Lemma driver_as_each_channel_in_turn (mk : list QtVersion → string → Call)
    (stage : Builder → list QtVersion → string → gmap Path Node → Res () * gmap Path Node)
    (args : Namespace) (w : World) (qts : list QtVersion) :
  dist args = Some "all" →
  result (get_qt_versions args w) = Ret qts →
  as_each_channel_in_turn (driver mk stage) args w (driver mk stage args w).
Proof.
  intros Hd Hq. unfold as_each_channel_in_turn. cbn zeta.
  rewrite (run_bind_proj (driver mk stage (set_dist args "local"))).
  assert (match version args with
          | None => True
          | Some v => ∃ e, AddonBuilder_init v (inputs w) = Raise e
          end ∨ ∃ v b, version args = Some v ∧ AddonBuilder_init v (inputs w) = Ret b)
    as [Hnone|(v & b & Hv & Hb)].
  { destruct (version args) as [v|]; [|by left].
    destruct (AddonBuilder_init v (inputs w)) as [b|e] eqn:Hb; [right|left]; eauto. }
  { destruct (driver_no_builder mk stage args w qts "all" Hd Hq Hnone) as [t ->].
    destruct (driver_no_builder mk stage (set_dist args "local") w qts "local"
                eq_refl Hq Hnone) as [t' ->].
    cbn [set_dist version]. unfold result, final. cbn [fst snd].
    destruct (version args) as [v|]; [|by cbn].
    destruct Hnone as [e ->]. by cbn. }
  destruct (driver_all mk stage args w qts v b Hd Hq Hv Hb) as [-> ->].
  rewrite (driver_single mk stage (set_dist args "local") w qts "local" v b)
    by done.
  unfold result at 2 4, final at 2 3 5. cbn [fst snd].
  destruct (stage b qts "local" (fs w)) as [[[]|e1] fs1]; cbn [fst snd]; [|done].
  set (w1 := {| inputs := inputs w; fs := fs1 |}).
  assert (result (get_qt_versions (set_dist args "ankiweb") w1) = Ret qts) as Hq1
    by by rewrite get_qt_versions_set_dist, (get_qt_versions_run args w1 w eq_refl).
  change (final (Ret PyNone, w1, ?t)) with w1.
  rewrite (driver_single mk stage (set_dist args "ankiweb") w1 qts "ankiweb" v b)
    by done.
  unfold result, final. cbn [fst snd fs inputs w1]. done.
Qed.

(** X10: for the channel selector [all] and a target that expands, each of
    [build], [build_dist] and [package_dist] leaves the files and the
    outcome of running the same command for the channel [local] and then,
    if that returned, for the channel [ankiweb]. *)
Theorem all_channels_is_each_in_turn (args : Namespace) (w : World)
    (qts : list QtVersion) :
  dist args = Some "all" →
  result (get_qt_versions args w) = Ret qts →
  as_each_channel_in_turn build args w (build args w) ∧
  as_each_channel_in_turn build_dist args w (build_dist args w) ∧
  as_each_channel_in_turn package_dist args w (package_dist args w).
Proof.
  intros Hd Hq. split_and!.
  - apply (driver_as_each_channel_in_turn call_build stage_build args w qts Hd Hq).
  - apply (driver_as_each_channel_in_turn call_build_dist stage_build_dist
             args w qts Hd Hq).
  - apply (driver_as_each_channel_in_turn call_package_dist stage_package_dist
             args w qts Hd Hq).
Qed.

(** X11: each of the commands of the pipeline keeps to its own method of
    the builder: besides reading the configuration and constructing the
    builder, [create_dist] only calls [create_dist], [build_dist] only
    [build_dist], [package_dist] only [package_dist], and [build] only
    [build]. *)
Theorem commands_keep_to_their_method (args : Namespace) (w : World) :
  calls_only (λ c, setup_call c ∨ c = call_create_dist) (trace (create_dist args w)) ∧
  calls_only (λ c, setup_call c ∨ ∃ qts d, c = call_build_dist qts d)
             (trace (build_dist args w)) ∧
  calls_only (λ c, setup_call c ∨ ∃ qts d, c = call_package_dist qts d)
             (trace (package_dist args w)) ∧
  calls_only (λ c, setup_call c ∨ ∃ qts d, c = call_build qts d)
             (trace (build args w)).
Proof.
  assert (∀ (allowed : Call → Prop) (m : M PyVal),
            traced (λ ev, ∀ c o, ev = EvCall c o → allowed c) m →
            calls_only allowed (trace (m w))) as Hto.
  { intros allowed m Hm. apply Hm. }
  unfold setup_call. split_and!; apply Hto.
  - unfold create_dist, builder_create_dist, AddonBuilder.
    traced_split; intros ?? [= <- <-]; eauto.
  - unfold build_dist, builder_build_dist, AddonBuilder, get_qt_versions,
      Config_new, logging_info.
    traced_split; intros ?? [=]; subst; eauto.
  - unfold package_dist, builder_package_dist, AddonBuilder, get_qt_versions,
      Config_new, logging_info.
    traced_split; intros ?? [=]; subst; eauto.
  - unfold build, builder_build, AddonBuilder, get_qt_versions,
      Config_new, logging_info.
    traced_split; intros ?? [=]; subst; eauto.
Qed.

(** ** Where exceptions come from *)

Lemma origin_ret {A} (P : Exn → Prop) (a : A) : raised_by_call_or P (mret a).
Proof. by intros w e. Qed.

Lemma origin_raise {A} (P : Exn → Prop) (e : Exn) :
  P e → raised_by_call_or P (raise (A := A) e).
Proof. intros He w e' [= <-]. by right. Qed.

Lemma origin_bind {A B} (P : Exn → Prop) (m : M A) (f : A → M B) :
  raised_by_call_or P m → (∀ a, raised_by_call_or P (f a)) →
  raised_by_call_or P (m ≫= f).
Proof.
  intros Hm Hf w e. rewrite run_bind_proj. specialize (Hm w).
  destruct (result (m w)) as [a|e'].
  - cbn zeta. unfold result at 1, trace at 1. cbn [fst snd]. intros Hr.
    destruct (Hf a _ _ Hr) as [(t0 & c & ->)|He]; [left|by right].
    exists (trace (m w) ++ t0), c. by rewrite (assoc_L (++)).
  - unfold result at 1, trace at 1. cbn [fst snd]. intros [= ->]. by apply Hm.
Qed.

Lemma origin_emit (P : Exn → Prop) (ev : Event) : raised_by_call_or P (emit ev).
Proof. by intros w e. Qed.

Lemma origin_reading {A} (P : Exn → Prop) (c : Call) (g : Inputs → Res A) :
  raised_by_call_or P (reading c g).
Proof.
  intros w e. unfold reading, result, trace. cbn [fst snd].
  intros ->. left. by exists [], c.
Qed.

Lemma origin_updating {A} (P : Exn → Prop) (c : Call)
    (g : gmap Path Node → Res A * gmap Path Node) :
  raised_by_call_or P (updating c g).
Proof.
  intros w e. unfold updating.
  destruct (g (fs w)) as [r fs']. unfold result, trace. cbn [fst snd].
  intros ->. left. by exists [], c.
Qed.

Lemma origin_if {A} (P : Exn → Prop) (b : bool) (m1 m2 : M A) :
  raised_by_call_or P m1 → raised_by_call_or P m2 →
  raised_by_call_or P (if b then m1 else m2).
Proof. by destruct b. Qed.

Lemma origin_py_for {X S} (P : Exn → Prop) (xs : list X) (body : X → S → M S) (s : S) :
  (∀ x s, raised_by_call_or P (body x s)) → raised_by_call_or P (py_for xs body s).
Proof.
  intros Hbody. revert s.
  induction xs as [|x xs IH]; intros s; [apply origin_ret|].
  apply origin_bind; [apply Hbody | apply IH].
Qed.

Lemma origin_py_listcomp {X Y} (P : Exn → Prop) (f : X → M Y) (xs : list X) :
  (∀ x, raised_by_call_or P (f x)) → raised_by_call_or P (py_listcomp f xs).
Proof.
  intros Hf. induction xs as [|x xs IH]; [apply origin_ret|].
  apply origin_bind; [apply Hf | intros y].
  apply origin_bind; [apply IH | intros ys; apply origin_ret].
Qed.

Lemma origin_QtVersion_lookup (key : string) :
  raised_by_call_or (λ e, ∃ key, e = KeyError key ∧ unknown_target key)
                    (QtVersion_lookup key).
Proof.
  unfold QtVersion_lookup. destruct (QtVersion_getitem key) eqn:Hk.
  - apply origin_ret.
  - apply origin_raise. by exists key.
Qed.

Ltac origin_step :=
  first
    [ apply origin_ret | apply origin_QtVersion_lookup
    | apply origin_reading | apply origin_updating | apply origin_emit
    | apply origin_bind; [|intros ?]
    | apply origin_if
    | apply origin_py_for; intros ? ?
    | apply origin_py_listcomp; intros ? ].

(** For a namespace the parser returns, an exception that ends a command
    was raised by the last call the command made, or it is the [KeyError] of
    a name that is no member of [QtVersion]. *)
Lemma exceptions_come_from_calls_or_targets (args : Namespace) (w : World) (e : Exn) :
  parsed args = true →
  result (call_func args w) = Raise e →
  (∃ t0 c, trace (call_func args w) = t0 ++ [EvCall c (Some e)]) ∨
  (∃ key, e = KeyError key ∧ unknown_target key).
Proof.
  intros Hparsed. apply parsed_attributes in Hparsed. revert w e.
  change (raised_by_call_or (λ e, ∃ key, e = KeyError key ∧ unknown_target key)
                            (call_func args)).
  unfold call_func.
  destruct (func args);
    unfold print_usage, build, ui, manifest, clean, create_dist, build_dist,
      package_dist, builder_build, builder_create_dist, builder_build_dist,
      builder_package_dist, clean_repo, generate_and_write_manifest,
      AddonBuilder, UIBuilder, Git_parse_version, get_qt_versions, Config_new,
      logging_info, print;
    repeat match type of Hparsed with
           | _ ∧ _ =>
               let H := fresh in
               destruct Hparsed as [[? H] Hparsed]; rewrite ?H; clear H
           | is_Some _ =>
               let H := fresh in destruct Hparsed as [? H]; rewrite ?H; clear H
           end;
    cbn [getattr]; repeat origin_step.
Qed.

(** X13: for a concrete channel, once the version is resolved and the
    properties are loaded, [manifest] calls the writer exactly once, with
    the properties as loaded, the version as resolved (not the reference it
    was given), the channel as given and the module directory under [src]
    of the project root; it returns [None] when the writer returns and ends
    with the writer's exception otherwise. *)
Theorem manifest_calls_the_writer_once (args : Namespace) (w : World)
    (v : option string) (ver : string) (c : Config) (d : string) :
  version args = Some v →
  vcs_resolve (inputs w) v = Ret ver →
  config_store (inputs w) = Ret c →
  dist args = Some d →
  d ≠ "all" →
  ∃ o : option Exn,
    trace (manifest args w) =
      [EvCall (call_parse_version v) None; EvCall call_Config None;
       EvCall (call_generate_and_write_manifest c ver d
                 (PATH_ROOT </> "src" </> cfg_module_name c)) o] ∧
    result (manifest args w) =
      match o with None => Ret PyNone | Some e => Raise e end.
Proof.
  intros Hv Hver Hc Hd Hall.
  rewrite (manifest_run args w v d Hv Hd), Hver, Hc.
  rewrite bool_decide_eq_false_2 by done. cbn zeta.
  eexists. split; [reflexivity|].
  unfold result. cbn [fst]. by destruct (write_manifest _ _ _ _ _).1.
Qed.

(** ** The manifest command, the progress lines and the entry point, with
    their texts written out *)

(** C3, as the code has it: [manifest] with the channel selector [all]
    never calls the writer of the manifest and leaves the files as they are.
    It raises no error of its own: it resolves the version and loads the
    properties first, ends with the exception of either when that raises,
    and otherwise prints that [all] is not supported and returns [False]. *)
Theorem manifest_all_returns_false (args : Namespace) (w : World) :
  dist args = Some "all" →
  (final (manifest args w) = w ∧
   Forall (λ ev, ¬ writes_manifest ev) (trace (manifest args w))) ∧
  ∀ v, version args = Some v →
    manifest args w =
    match vcs_resolve (inputs w) v with
    | Raise e => (Raise e, w, [EvCall (call_parse_version v) (Some e)])
    | Ret _ =>
        match config_store (inputs w) with
        | Raise e =>
            (Raise e, w,
             [EvCall (call_parse_version v) None; EvCall call_Config (Some e)])
        | Ret _ =>
            (Ret (PyBool false), w,
             [EvCall (call_parse_version v) None; EvCall call_Config None;
              EvPrint "'all' is not supported as a dist_type value when building the manifest."])
        end
    end.
Proof.
  intros Hd.
  assert (∀ v, version args = Some v →
    manifest args w =
    match vcs_resolve (inputs w) v with
    | Raise e => (Raise e, w, [EvCall (call_parse_version v) (Some e)])
    | Ret _ =>
        match config_store (inputs w) with
        | Raise e =>
            (Raise e, w,
             [EvCall (call_parse_version v) None; EvCall call_Config (Some e)])
        | Ret _ =>
            (Ret (PyBool false), w,
             [EvCall (call_parse_version v) None; EvCall call_Config None;
              EvPrint "'all' is not supported as a dist_type value when building the manifest."])
        end
    end) as Hrun.
  { intros v Hv. rewrite (manifest_run args w v "all" Hv Hd).
    rewrite bool_decide_eq_true_2 by done.
    destruct (vcs_resolve (inputs w) v) as [ver|e]; [|done].
    by destruct (config_store (inputs w)) as [c|e]. }
  split; [|done].
  destruct (version args) as [v|] eqn:Hv.
  - rewrite (Hrun v eq_refl).
    destruct (vcs_resolve (inputs w) v) as [ver|e];
      [destruct (config_store (inputs w)) as [c|e]|];
      (split; [done|]); repeat constructor; by intros (?&?&?&?&?&?).
  - unfold manifest. rewrite Hv. cbn [getattr]. rewrite run_raise_bind.
    split; [done|constructor].
Qed.



(** C10, as the code has it: when the command line parses and the source
    directory or the configuration file is missing, [main] prints the banner
    and the error that names the first missing path, and exits with status
    1.  Whatever the command line, outside a project root no command is
    called and the files are as they were. *)
Theorem main_entry_outside_project_root (args : Namespace) (p : Parse) (w : World) :
  fs w !! (PATH_ROOT </> "src") = None ∨ fs w !! PATH_CONFIG = None →
  (∃ missing : Path,
     missing ∈ [PATH_ROOT </> "src"; PATH_CONFIG] ∧
     fs w !! missing = None ∧
     (fs w !! (PATH_ROOT </> "src") = None → missing = PATH_ROOT </> "src") ∧
     main_entry (parse_ok args) w =
       (Raise (SystemExit 1), w,
        [EvPrint COPYRIGHT_MSG;
         EvPrint ("Error: " +:+ path_name missing
                  +:+ " not found. Please run this script from the project root.")])) ∧
  exit_status (result (main_entry (parse_ok args) w)) = 1%Z ∧
  final (main_entry p w) = w ∧
  Forall (λ ev, ∀ c o, ev ≠ EvCall c o) (trace (main_entry p w)).
Proof.
  intros Hmissing.
  assert (∀ q : Path, fs w !! q = None → bool_decide (is_Some (fs w !! q)) = false)
    as Hnone.
  { intros q Hq. apply bool_decide_eq_false_2. rewrite Hq. by intros [? ?]. }
  assert (∀ a : Namespace, ∃ missing : Path,
     missing ∈ [PATH_ROOT </> "src"; PATH_CONFIG] ∧
     fs w !! missing = None ∧
     (fs w !! (PATH_ROOT </> "src") = None → missing = PATH_ROOT </> "src") ∧
     main a w =
       (Raise (SystemExit 1), w,
        [EvPrint COPYRIGHT_MSG;
         EvPrint ("Error: " +:+ path_name missing
                  +:+ " not found. Please run this script from the project root.")]))
    as Hrun.
  { intros a. destruct (fs w !! (PATH_ROOT </> "src")) as [n|] eqn:Hsrc.
    - destruct Hmissing as [?|Hcfg]; [done|].
      exists PATH_CONFIG. split_and!; [by repeat constructor|done..|].
      apply main_not_in_project_root.
      rewrite validate_cwd_run, Hsrc, (Hnone _ Hcfg).
      by rewrite bool_decide_eq_true_2.
    - exists (PATH_ROOT </> "src"). split_and!; [by repeat constructor|done..|].
      rewrite path_name_join. apply main_not_in_project_root.
      by rewrite validate_cwd_run, (Hnone _ Hsrc). }
  split_and!.
  - apply Hrun.
  - cbn [main_entry]. by destruct (Hrun args) as (? & _ & _ & _ & ->).
  - destruct p as [a| |]; cbn [main_entry]; [|done..].
    by destruct (Hrun a) as (? & _ & _ & _ & ->).
  - destruct p as [a| |]; cbn [main_entry];
      [destruct (Hrun a) as (? & _ & _ & _ & ->)|..];
      repeat constructor; by intros ??.
Qed.

(** X12: for a namespace the parser returns, no command fails on an
    attribute of the namespace: a command reads only what the parents of its
    sub-parser define, so when it ends with an [AttributeError], that is the
    exception of the last call it made. *)
Theorem no_attribute_is_missing (args : Namespace) (w : World) (name : string) :
  parsed args = true →
  result (call_func args w) = Raise (AttributeError name) →
  ∃ t0 c, trace (call_func args w) = t0 ++ [EvCall c (Some (AttributeError name))].
Proof.
  intros Hparsed Hres.
  destruct (exceptions_come_from_calls_or_targets args w _ Hparsed Hres)
    as [Hcall|(key & [=] & _)].
  done.
Qed.

End Properties.

(** * The concrete project *)

(** ** Target expansion *)

Lemma all_targets_follow_config_witness :
  result (get_qt_versions (demo_args cmd_build "all" "all") (demo_world ["qt6"; "qt5"]))
  = Ret [qt6; qt5].
Proof.
  apply (all_targets_follow_config
           (demo_args cmd_build "all" "all") (demo_world ["qt6"; "qt5"])
           (demo_config ["qt6"; "qt5"]) eq_refl eq_refl).
  reflexivity.
Defined.

(** C4 as stated fails: a project configured for one toolkit only, or for
    the two in the other order, gets exactly what its configuration lists. *)
Lemma all_targets_counterexample :
  parsed (demo_args cmd_build "all" "all") = true ∧
  result (get_qt_versions (demo_args cmd_build "all" "all") (demo_world ["qt6"])) = Ret [qt6] ∧
  result (get_qt_versions (demo_args cmd_build "all" "all") (demo_world ["qt6"; "qt5"])) = Ret [qt6; qt5] ∧
  result (get_qt_versions (demo_args cmd_build "all" "all") (demo_world ["qt6"])) ≠ Ret [qt5; qt6].
Proof. by vm_compute. Qed.

(** ** The drivers *)

Example build_all_all_progress :
  progress (trace (build (E := demo_externals)
                     (demo_args cmd_build "all" "all") (demo_world ["qt5"; "qt6"])))
  = [Logged (build_task_line 1 2); Task "local";
     Logged (build_task_line 2 2); Task "ankiweb"].
Proof. by vm_compute. Qed.

Lemma build_all_all_units_witness :
  ∃ k : nat, (k ≤ 2)%nat ∧
    build_units (trace (build (E := demo_externals)
                          (demo_args cmd_build "all" "all") (demo_world ["qt5"; "qt6"]))) =
      take k [([qt5; qt6], "local"); ([qt5; qt6], "ankiweb")] ∧
    match result (build (E := demo_externals)
                    (demo_args cmd_build "all" "all") (demo_world ["qt5"; "qt6"])) with
    | Ret _ => k = 2
    | Raise _ => True
    end.
Proof.
  apply (build_all_all_units (E := demo_externals)
           (demo_args cmd_build "all" "all") (demo_world ["qt5"; "qt6"])
           (demo_config ["qt5"; "qt6"]) eq_refl eq_refl eq_refl).
  right. reflexivity.
Defined.

(** C1 as stated fails: for the selectors [all] and [all] the builder is
    handed two units, one for each channel, not four; each unit carries both
    variants, so the pairs come channel by channel, not variant by
    variant. *)
Lemma expand_all_all_counterexample :
  let tr := trace (build (E := demo_externals)
                     (demo_args cmd_build "all" "all") (demo_world ["qt5"; "qt6"])) in
  parsed (demo_args cmd_build "all" "all") = true ∧
  build_units tr = [([qt5; qt6], "local"); ([qt5; qt6], "ankiweb")] ∧
  length (build_units tr) ≠ 4 ∧
  unit_pairs (build_units tr) =
    [(qt5, "local"); (qt6, "local"); (qt5, "ankiweb"); (qt6, "ankiweb")] ∧
  unit_pairs (build_units tr) ≠
    [(qt5, "local"); (qt5, "ankiweb"); (qt6, "local"); (qt6, "ankiweb")].
Proof. by vm_compute. Qed.

(** [build_dist] for both channels in a project where nothing is staged:
    the first unit raises. *)
Lemma failing_call_ends_the_run_witness :
  result (call_func (E := demo_externals)
            (demo_args cmd_build_dist "all" "all") (demo_world ["qt5"; "qt6"]))
  = Raise (ExternalError "NotStaged").
Proof.
  refine (proj1 (proj2
    (failing_call_ends_the_run (E := demo_externals)
       (demo_args cmd_build_dist "all" "all") (demo_world ["qt5"; "qt6"])
       [EvCall call_Config None; EvCall (call_AddonBuilder None) None;
        EvLogInfo (build_task_line 1 2)]
       (call_build_dist [qt5; qt6] "local") (ExternalError "NotStaged") [] _))).
  vm_compute. reflexivity.
Defined.

(** C2 as stated fails: the unit after the failing one is never attempted. *)
Lemma failing_unit_counterexample :
  let args := demo_args cmd_build_dist "all" "all" in
  let x := build_dist (E := demo_externals) args (demo_world ["qt5"; "qt6"]) in
  parsed args = true ∧
  dists_of args = ["local"; "ankiweb"] ∧
  result x = Raise (ExternalError "NotStaged") ∧
  progress (trace x) = [Logged (build_task_line 1 2); Task "local"] ∧
  Task "ankiweb" ∉ progress (trace x).
Proof.
  split_and!; [by vm_compute..|].
  apply (bool_decide_unpack _). by vm_compute.
Qed.

(** ** The entry point *)


(** ** The manifest command *)

Lemma manifest_written_in_source_tree_witness :
  fs (final (manifest (E := demo_externals)
               (manifest_args "local") (demo_world ["qt5"; "qt6"])))
    !! ["src"; "demo"; "manifest.json"]
  = Some (File "demo 1.2.0 local").
Proof.
  refine (proj1 (proj2
    (manifest_written_in_source_tree (E := demo_externals)
       (manifest_args "local") (demo_world ["qt5"; "qt6"])
       None "1.2.0" (demo_config ["qt5"; "qt6"]) "local" "demo 1.2.0 local"
       eq_refl eq_refl eq_refl eq_refl _ eq_refl))).
  discriminate.
Defined.

(** C6 as stated fails: the manifest goes into the source tree of the
    project root; the staged tree under [build/dist] is not written to, and
    here does not even exist. *)
Lemma manifest_location_counterexample :
  let x := manifest (E := demo_externals)
             (manifest_args "local") (demo_world ["qt5"; "qt6"]) in
  parsed (manifest_args "local") = true ∧
  result x = Ret PyNone ∧
  PATH_DIST (E := demo_externals) = ["build"; "dist"] ∧
  map_to_list (fs (final x)) =
    [(["src"; "demo"; "manifest.json"], File "demo 1.2.0 local");
     (["addon.json"], File "{}");
     (["src"], Dir)] ∧
  ¬ PATH_DIST (E := demo_externals) `prefix_of` ["src"; "demo"; "manifest.json"].
Proof.
  split_and!; [by vm_compute..|].
  intros [k Hk]. discriminate.
Qed.

(** ** The stages of the pipeline *)

Lemma build_is_the_three_stages_witness :
  let args := demo_args cmd_build "all" "local" in
  let w := demo_world ["qt5"; "qt6"] in
  let x := build (E := demo_externals) args w in
  let y := (create_dist (E := demo_externals) args;;
            build_dist (E := demo_externals) args;;
            package_dist (E := demo_externals) args) w in
  result x = result y ∧
  final x = final y ∧
  match result y with
  | Ret _ =>
      builders_constructed (trace x) = 1 ∧ builders_constructed (trace y) = 3
  | Raise _ => True
  end.
Proof.
  apply (build_is_the_three_stages (E := demo_externals)
           (demo_args cmd_build "all" "local") (demo_world ["qt5"; "qt6"])
           [qt5; qt6] "local" eq_refl).
  - discriminate.
  - reflexivity.
Defined.

(** * Further properties, on the concrete project *)

Lemma get_qt_versions_unknown_name_witness :
  result (get_qt_versions (demo_args cmd_build "all" "local") (demo_world ["qt6"; "qt4"]))
  = Raise (KeyError "qt4").
Proof.
  refine (proj2
    (get_qt_versions_unknown_name
       (demo_args cmd_build "all" "local") (demo_world ["qt6"; "qt4"]) "qt4" eq_refl _)
    (demo_config ["qt6"; "qt4"]) [qt6] [] eq_refl eq_refl eq_refl _).
  - discriminate.
  - apply not_elem_of_nil.
Defined.

Lemma failed_expansion_stops_the_command_witness :
  build (E := demo_externals) (demo_args cmd_build "all" "all") (demo_world ["qt4"])
  = (Raise (KeyError "qt4"), demo_world ["qt4"], [EvCall call_Config None]).
Proof.
  refine (proj1
    (failed_expansion_stops_the_command (E := demo_externals)
       (demo_args cmd_build "all" "all") (demo_world ["qt4"]) (KeyError "qt4") _)).
  reflexivity.
Defined.

Lemma manifest_fails_before_the_channel_witness :
  manifest (E := demo_externals) (manifest_args "all") empty_dir
  = (Raise (ExternalError "git"), empty_dir,
     [EvCall (call_parse_version None) (Some (ExternalError "git"))]).
Proof.
  refine (proj1
    (manifest_fails_before_the_channel (E := demo_externals)
       (manifest_args "all") empty_dir None (ExternalError "git") eq_refl) _).
  reflexivity.
Defined.

(** [manifest] for the channel selector [all] returns [False], and [main]
    exits with status 0. *)
Lemma main_ignores_the_return_value_witness :
  result (call_func (E := demo_externals) (manifest_args "all") (demo_world ["qt6"]))
    = Ret (PyBool false) ∧
  exit_status (result (main (E := demo_externals)
                         (manifest_args "all") (demo_world ["qt6"]))) = 0%Z.
Proof.
  split; [reflexivity|].
  refine (proj2 (proj2
    (main_ignores_the_return_value (E := demo_externals)
       (manifest_args "all") (demo_world ["qt6"]) _ _))).
  - vm_compute. eauto.
  - vm_compute. eauto.
Defined.

Lemma ui_returns_after_all_variants_witness :
  ∃ qts : list QtVersion,
    result (get_qt_versions (ui_args "all") (demo_world ["qt6"; "qt5"])) = Ret qts ∧
    PyNone = PyNone ∧
    trace (ui (E := demo_externals) (ui_args "all") (demo_world ["qt6"; "qt5"])) =
      trace (get_qt_versions (ui_args "all") (demo_world ["qt6"; "qt5"]))
      ++ EvCall (call_UIBuilder []) None :: ui_tasks qts
      ++ [EvLogInfo shim_line; EvCall call_create_qt_shim None; EvLogInfo "Done."].
Proof.
  apply (ui_returns_after_all_variants (E := demo_externals)
           (ui_args "all") (demo_world ["qt6"; "qt5"]) PyNone).
  reflexivity.
Defined.

Lemma ui_shim_after_all_builds_witness :
  ∃ qts : list QtVersion,
    result (get_qt_versions (ui_args "all") (demo_world ["qt6"; "qt5"])) = Ret qts ∧
    ui_built [EvCall call_Config None; EvCall (call_UIBuilder []) None;
              EvLogInfo (ui_task_line 1 2); EvCall (call_ui_build qt6) None;
              EvLogInfo (ui_task_line 2 2); EvCall (call_ui_build qt5) None;
              EvLogInfo shim_line] = qts.
Proof.
  apply (ui_shim_after_all_builds (E := demo_externals)
           (ui_args "all") (demo_world ["qt6"; "qt5"]) _ None [EvLogInfo "Done."]).
  vm_compute. reflexivity.
Defined.

Lemma all_channels_is_each_in_turn_witness :
  as_each_channel_in_turn (build (E := demo_externals))
    (demo_args cmd_build "all" "all") (demo_world ["qt5"; "qt6"])
    (build (E := demo_externals) (demo_args cmd_build "all" "all")
           (demo_world ["qt5"; "qt6"])).
Proof.
  refine (proj1
    (all_channels_is_each_in_turn (E := demo_externals)
       (demo_args cmd_build "all" "all") (demo_world ["qt5"; "qt6"]) [qt5; qt6]
       eq_refl _)).
  reflexivity.
Defined.


(** The reference [release] resolves to the version [1.2.0], and that is
    what the writer gets. *)
Lemma manifest_calls_the_writer_once_witness :
  ∃ o : option Exn,
    trace (manifest (E := demo_externals)
             {| verbose := false; target := None; dist := Some "ankiweb";
                version := Some (Some "release"); func := cmd_manifest |}
             (demo_world ["qt6"])) =
      [EvCall (call_parse_version (Some "release")) None; EvCall call_Config None;
       EvCall (call_generate_and_write_manifest (demo_config ["qt6"]) "1.2.0" "ankiweb"
                 ["src"; "demo"]) o] ∧
    result (manifest (E := demo_externals)
              {| verbose := false; target := None; dist := Some "ankiweb";
                 version := Some (Some "release"); func := cmd_manifest |}
              (demo_world ["qt6"])) =
      match o with None => Ret PyNone | Some e => Raise e end.
Proof.
  apply (manifest_calls_the_writer_once (E := demo_externals)
           {| verbose := false; target := None; dist := Some "ankiweb";
              version := Some (Some "release"); func := cmd_manifest |}
           (demo_world ["qt6"]) (Some "release") "1.2.0" (demo_config ["qt6"]) "ankiweb"
           eq_refl eq_refl eq_refl eq_refl).
  discriminate.
Defined.

(** * The manifest command, the progress lines and the entry point, on the
    concrete project *)

Lemma manifest_all_returns_false_witness :
  manifest (E := demo_externals) (manifest_args "all") (demo_world ["qt5"; "qt6"]) =
  (Ret (PyBool false), demo_world ["qt5"; "qt6"],
   [EvCall (call_parse_version None) None; EvCall call_Config None;
    EvPrint "'all' is not supported as a dist_type value when building the manifest."]).
Proof.
  refine (proj2
    (manifest_all_returns_false (E := demo_externals)
       (manifest_args "all") (demo_world ["qt5"; "qt6"]) eq_refl) None eq_refl).
Defined.

(** C3 as stated fails: the command does not fail.  In the demo project it
    returns [False] and the run exits with status 0; with a history that has
    no tag the run ends with the error of the version, and the channel is
    never reported. *)
Lemma manifest_all_counterexample :
  parsed (manifest_args "all") = true ∧
  result (manifest (E := demo_externals) (manifest_args "all") (demo_world ["qt6"]))
    = Ret (PyBool false) ∧
  exit_status (result (main (E := demo_externals)
                         (manifest_args "all") (demo_world ["qt6"]))) = 0%Z ∧
  main (E := demo_externals) (manifest_args "all") untagged_world =
    (Raise (ExternalError "NoReleaseFound"), untagged_world,
     [EvPrint "Anki Add-on Builder"; EvLogConfig false;
      EvCall (call_parse_version None) (Some (ExternalError "NoReleaseFound"))]).
Proof. by vm_compute. Qed.


Lemma main_entry_outside_project_root_witness :
  main_entry (E := demo_externals) (parse_ok (demo_args cmd_build "all" "all")) empty_dir =
  (Raise (SystemExit 1), empty_dir,
   [EvPrint "Anki Add-on Builder";
    EvPrint "Error: src not found. Please run this script from the project root."]).
Proof.
  destruct (main_entry_outside_project_root (E := demo_externals)
              (demo_args cmd_build "all" "all") parse_help empty_dir)
    as [(missing & _ & _ & Hfirst & Hrun) _].
  - left. reflexivity.
  - rewrite Hrun, (Hfirst eq_refl). reflexivity.
Defined.

(** C10 as stated fails: outside a project root a command line that asks
    for the help exits with status 0, and one the parser rejects with status
    2, neither with the error that names the missing path. *)
Lemma main_entry_counterexample :
  fs empty_dir !! (PATH_ROOT (Externals := demo_externals) </> "src") = None ∧
  main_entry (E := demo_externals) parse_help empty_dir =
    (Raise (SystemExit 0), empty_dir, [EvPrint "Anki Add-on Builder"; EvUsage]) ∧
  exit_status (result (main_entry (E := demo_externals) parse_help empty_dir)) = 0%Z ∧
  exit_status (result (main_entry (E := demo_externals) parse_error empty_dir)) = 2%Z.
Proof. by vm_compute. Qed.

(** [ui] in a project whose properties fail to load with an
    [AttributeError]: the exception is the one of the call. *)
Lemma no_attribute_is_missing_witness :
  ∃ t0 c, trace (call_func (E := demo_externals) (ui_args "all") broken_config_world)
          = t0 ++ [EvCall c (Some (AttributeError "json"))].
Proof.
  apply (no_attribute_is_missing (E := demo_externals)
           (ui_args "all") broken_config_world "json"); reflexivity.
Defined.
